(** * License plate recognition: the detection and classification pipeline

    A shallow embedding of [main.py]: the country pattern table and
    [detect_country], the per-frame pipeline [process_frame], and the entry
    points [process_image], [play_video] and [main].

    Conventions of the embedding.
    - A Python [str] is a list of Unicode code points ([N]); string
      literals of the source are written as Rocq strings and converted
      with [codepoints].
    - A Python [float] that the code only compares against a constant is
      an exact rational ([Q]); the constants are the exact values of the
      binary64 literals.
    - OpenCV, EasyOCR and the Unicode database are collaborators: their
      operations are fields of the classes [PyStr] and [Vision] and the
      [reader] argument. *)

From Stdlib Require Import String Ascii.
From Stdlib Require Import List Bool Arith NArith ZArith PArith QArith Lia.
From Stdlib Require DecimalString.
Import ListNotations.

Set Implicit Arguments.

Local Close Scope Q_scope.
Local Open Scope nat_scope.
Local Open Scope list_scope.

(** ** Python strings *)

Definition char := N.
Definition str := list char.

Fixpoint codepoints (s : string) : str :=
  match s with
  | EmptyString => []
  | String a s' => N_of_ascii a :: codepoints s'
  end.

(** ** The regular expressions of the pattern table

    Every pattern of [LICENSE_PLATE_PATTERNS] is a sequence of items: a
    bracketed set of character ranges with a counted repetition
    ([[A-Z0-9]{1,7}], [[0-9]{4}]) or a literal character ([-]). *)

Inductive item :=
| Rep (ranges : list (ascii * ascii)) (lo hi : nat)
| Lit (a : ascii).

Definition pattern := list item.

(** The source text of a pattern, to compare with [main.py]. *)

Definition show_nat (n : nat) : string :=
  DecimalString.NilEmpty.string_of_uint (Nat.to_uint n).

Fixpoint show_ranges (rs : list (ascii * ascii)) : string :=
  match rs with
  | [] => EmptyString
  | (a, b) :: rs' => String a (String "-" (String b (show_ranges rs')))
  end.

Definition show_item (it : item) : string :=
  match it with
  | Rep rs lo hi =>
      ("[" ++ show_ranges rs ++ "]{" ++
       (if Nat.eqb lo hi then show_nat lo
        else show_nat lo ++ "," ++ show_nat hi) ++ "}")%string
  | Lit a => String a EmptyString
  end.

Fixpoint pattern_source (p : pattern) : string :=
  match p with
  | [] => EmptyString
  | it :: p' => (show_item it ++ pattern_source p')%string
  end.

(** [c] belongs to the bracketed set [rs]. *)

Definition in_range (r : ascii * ascii) (c : char) : bool :=
  (N_of_ascii (fst r) <=? c)%N && (c <=? N_of_ascii (snd r))%N.

Definition in_class (rs : list (ascii * ascii)) (c : char) : bool :=
  existsb (fun r => in_range r c) rs.

(** [re.match(pattern, s)] as a condition: the backtracking matcher anchored
    at the start of [s].  A counted repetition is greedy: it first tries to
    take one more character and falls back to stopping once [lo] characters
    have been taken.  When the items are exhausted the match succeeds,
    whatever remains of [s]. *)

Fixpoint match_rep (rs : list (ascii * ascii)) (lo hi : nat)
         (k : str -> bool) (s : str) : bool :=
  match hi with
  | O => Nat.eqb lo 0 && k s
  | S hi' =>
      match s with
      | c :: s' =>
          if in_class rs c
          then match_rep rs (Nat.pred lo) hi' k s' || (Nat.eqb lo 0 && k s)
          else Nat.eqb lo 0 && k s
      | [] => Nat.eqb lo 0 && k s
      end
  end.

Fixpoint re_match (p : pattern) (s : str) : bool :=
  match p with
  | [] => true
  | Rep rs lo hi :: p' => match_rep rs lo hi (re_match p') s
  | Lit a :: p' =>
      match s with
      | c :: s' => (c =? N_of_ascii a)%N && re_match p' s'
      | [] => false
      end
  end.

(** The language of a pattern, and what it means for a pattern to match a
    prefix of a text. *)

Inductive item_lang : item -> str -> Prop :=
| lang_rep rs lo hi w :
    lo <= length w -> length w <= hi ->
    Forall (fun c => in_class rs c = true) w ->
    item_lang (Rep rs lo hi) w
| lang_lit a : item_lang (Lit a) [N_of_ascii a].

Inductive lang : pattern -> str -> Prop :=
| lang_nil : lang [] []
| lang_cons it p w1 w2 :
    item_lang it w1 -> lang p w2 -> lang (it :: p) (w1 ++ w2).

Definition matches_prefix (p : pattern) (s : str) : Prop :=
  exists pre suf, s = pre ++ suf /\ lang p pre.

(** ** The country pattern table and [detect_country] *)

Definition AZ : ascii * ascii := ("A"%char, "Z"%char).
Definition d09 : ascii * ascii := ("0"%char, "9"%char).

Definition USA_pattern : pattern := [Rep [AZ; d09] 1 7].
Definition India_pattern : pattern :=
  [Rep [AZ] 2 2; Rep [d09] 2 2; Rep [AZ] 1 2; Rep [d09] 4 4].
Definition Nepal_pattern : pattern :=
  [Rep [AZ] 2 2; Lit "-"; Rep [d09] 1 4; Lit "-"; Rep [AZ] 1 2].
Definition Australia_pattern : pattern := [Rep [AZ] 1 3; Rep [d09] 1 4].
Definition Canada_pattern : pattern := [Rep [AZ; d09] 1 7].

(** A dict literal iterates in insertion order. *)

Definition LICENSE_PLATE_PATTERNS : list (string * pattern) :=
  [ ("USA"%string, USA_pattern);
    ("India"%string, India_pattern);
    ("Nepal"%string, Nepal_pattern);
    ("Australia"%string, Australia_pattern);
    ("Canada"%string, Canada_pattern) ].

(** [text.replace(" ", "")]: only U+0020 is removed. *)

Definition remove_spaces (text : str) : str :=
  filter (fun c => negb (c =? 32)%N) text.

Fixpoint detect_country_in (table : list (string * pattern)) (text : str)
  : string :=
  match table with
  | [] => "Unknown"%string
  | (country, pattern) :: rest =>
      if re_match pattern (remove_spaces text) then country
      else detect_country_in rest text
  end.

Definition detect_country (text : str) : string :=
  detect_country_in LICENSE_PLATE_PATTERNS text.

(** ** Unicode classification

    [str.isalnum] and [str.isspace] are tables of the Unicode database; on
    ASCII they are the sets below (letters and digits; TAB..CR, FS..US and
    the space). *)

Definition between (a b c : N) : bool := (a <=? c)%N && (c <=? b)%N.

Definition ascii_isalnum (c : char) : bool :=
  between 48 57 c || between 65 90 c || between 97 122 c.

Definition ascii_isspace (c : char) : bool :=
  between 9 13 c || between 28 32 c.

Class PyStr := {
  isalnum : char -> bool;
  isspace : char -> bool;
  isalnum_ascii : forall c, (c < 128)%N -> isalnum c = ascii_isalnum c;
  isspace_ascii : forall c, (c < 128)%N -> isspace c = ascii_isspace c
}.

(** The classification that knows ASCII only; it is the Unicode one on every
    text made of ASCII characters. *)

#[refine] Instance ascii_only : PyStr := {
  isalnum c := (c <? 128)%N && ascii_isalnum c;
  isspace c := (c <? 128)%N && ascii_isspace c
}.
Proof.
  - intros c Hc. apply N.ltb_lt in Hc. now rewrite Hc.
  - intros c Hc. apply N.ltb_lt in Hc. now rewrite Hc.
Defined.

(** ** Frames and regions *)

Definition Pixel := (N * N * N)%type.        (* B, G, R *)
Definition Image := list (list Pixel).       (* rows of pixels *)

(** [img.shape[0]] and [img.shape[1]].  The rows of an image have one
    length; [shape1] is read off the first row, and the code consults it
    only once [shape0] is known to be at least 20. *)

Definition shape0 (img : Image) : nat := length img.
Definition shape1 (img : Image) : nat := length (hd [] img).

(** [l[a:b]] for non-negative bounds: out-of-range bounds are clipped. *)

Definition slice {A} (a b : nat) (l : list A) : list A :=
  firstn (b - a) (skipn a l).

(** [frame[y:y+h, x:x+w]].  NumPy returns a view: the pixels are those of
    the frame at the time the view is read. *)

Definition crop (frame : Image) (x y w h : nat) : Image :=
  map (slice x (x + w)) (slice y (y + h) frame).

(** [cv2.boundingRect]: the width and height are [max - min + 1] of the
    contour's coordinates, hence at least 1. *)

Record Rect := { rx : nat; ry : nat; rw : positive; rh : positive }.

Definition roi_of (frame : Image) (r : Rect) : Image :=
  crop frame (rx r) (ry r) (Pos.to_nat (rw r)) (Pos.to_nat (rh r)).

Definition Plate := (str * string * Q)%type.   (* text, country, prob *)
Definition BBox := list (Z * Z).
Definition OCRResult := (BBox * str * Q)%type. (* bbox, text, prob *)

(** [reader.readtext]. *)

Definition Reader := Image -> list OCRResult.

(** The OpenCV operations [process_frame] uses.  [findContours frame] is
    the contour list of [cv2.findContours(cv2.Canny(gray, 30, 200),
    RETR_TREE, CHAIN_APPROX_SIMPLE)] for the [gray] of [preprocess_image];
    [approxPolyDP cnt] is [cv2.approxPolyDP(cnt, 0.02 * arcLength(cnt, True),
    True)]; [putText] and [rectangle] are the two drawing calls with their
    constant font, colour and thickness.  [preprocess_image] returns the
    input image itself next to [gray], so the frame of the loop is the input
    array; drawing happens in place, so it keeps the length of every row. *)

Class Vision := {
  Contour : Type;
  findContours : Image -> list Contour;
  contourArea : Contour -> Q;
  approxPolyDP : Contour -> list (Z * Z);
  boundingRect : Contour -> Rect;
  putText : Image -> Plate -> Z * Z -> Image;
  rectangle : Image -> Z * Z -> Z * Z -> Image;
  putText_shape : forall f info org,
      map (@length Pixel) (putText f info org) = map (@length Pixel) f;
  rectangle_shape : forall f pt1 pt2,
      map (@length Pixel) (rectangle f pt1 pt2) = map (@length Pixel) f
}.

(** ** Comparisons of floats

    [0.2] is not a binary64 number; the literal denotes the nearest one,
    3602879701896397 / 2^54.  [1000], [1.5] and [5.0] are exact.  For
    [w, h < 2^31], [1.5 <= float(w) / h] holds exactly when the rational
    [w / h] is at least [3/2], and likewise for [5.0]: the quotient is
    rounded to nearest and a rational [w / h] other than 3/2 differs from it
    by at least [1 / (2 h)].  An area and a confidence are numbers: a
    polygon's area, and a probability in [[0, 1]]. *)

Definition Qltb (a b : Q) : bool := negb (Qle_bool b a).

Definition conf_threshold : Q := 3602879701896397 # 18014398509481984.

Definition aspect_ratio (r : Rect) : Q := Z.pos (rw r) # rh r.

(** ** [process_frame] *)

Section Pipeline.

Context {U : PyStr} {V : Vision}.

Definition normalize (text : str) : str :=
  filter (fun e => isalnum e || isspace e) text.

(** The state of the loop: the frame (annotated in place), the list
    [detected_plates], and, as a ghost, the calls of [reader.readtext] made
    so far with the contour they were made for. *)

Record LoopState := {
  st_frame : Image;
  detected_plates : list Plate;
  ocr_calls : list (Contour * Image)
}.

Definition annotate (frame : Image) (r : Rect) (p : Plate) : Image :=
  let x := Z.of_nat (rx r) in
  let y := Z.of_nat (ry r) in
  let frame := putText frame p (x, (y - 10)%Z) in
  rectangle frame (x, y) ((x + Z.pos (rw r))%Z, (y + Z.pos (rh r))%Z).

(** One iteration of [for (bbox, text, prob) in result]. *)

Definition process_result (r : Rect) (st : LoopState) (res : OCRResult)
  : LoopState :=
  let '(_, text, prob) := res in
  if Qltb prob conf_threshold then st
  else
    let text := normalize text in
    if 4 <=? length text then
      let country := detect_country text in
      {| st_frame := annotate (st_frame st) r (text, country, prob);
         detected_plates := detected_plates st ++ [(text, country, prob)];
         ocr_calls := ocr_calls st |}
    else st.

(** One iteration of [for cnt in contours]. *)

Definition process_contour (reader : Reader) (st : LoopState) (cnt : Contour)
  : LoopState :=
  if Qltb (contourArea cnt) 1000 then st
  else if 4 <=? length (approxPolyDP cnt) then
    let r := boundingRect cnt in
    if Qle_bool (3 # 2) (aspect_ratio r) && Qle_bool (aspect_ratio r) 5 then
      let roi := roi_of (st_frame st) r in
      if (shape0 roi <? 20) || (shape1 roi <? 80) then st
      else
        let result := reader roi in
        let st := {| st_frame := st_frame st;
                     detected_plates := detected_plates st;
                     ocr_calls := ocr_calls st ++ [(cnt, roi)] |} in
        match result with
        | [] => st
        | _ => fold_left (process_result r) result st
        end
    else st
  else st.

Definition initial_state (frame : Image) : LoopState :=
  {| st_frame := frame; detected_plates := []; ocr_calls := [] |}.

Definition run_contours (reader : Reader) (contours : list Contour)
           (st : LoopState) : LoopState :=
  fold_left (process_contour reader) contours st.

Definition process_frame_state (frame : Image) (reader : Reader) : LoopState :=
  run_contours reader (findContours frame) (initial_state frame).

Definition process_frame (frame : Image) (reader : Reader)
  : Image * list Plate :=
  let st := process_frame_state frame reader in
  (st_frame st, detected_plates st).

End Pipeline.

(** ** Module state

    [LICENSE_PLATE_PATTERNS] is a module-level dict.  A call of
    [detect_country] reads it and assigns nothing: as a transformer of the
    module state it returns the label and the state it was given. *)

Record Globals := { patterns_of : list (string * pattern) }.

Definition module_globals : Globals :=
  {| patterns_of := LICENSE_PLATE_PATTERNS |}.

Definition detect_country_call (text : str) (g : Globals) : string * Globals :=
  (detect_country_in (patterns_of g) text, g).

(** ** Entry points

    What the entry points do to the outside is a trace of events. *)

Inductive source :=
| Path (video_path : string)
| Index (i : nat).

Definition show_source (src : source) : string :=
  match src with
  | Path p => p
  | Index i => show_nat i
  end.

Inductive event :=
| EvPrint (msg : string)
| EvPrintPlate (p : Plate)     (* print(f"Detected Plate: {plate} - ...") *)
| EvPrintException             (* print(f"An error occurred: {str(e)}") *)
| EvInput (prompt : string)
| EvReader                     (* easyocr.Reader(['en']) *)
| EvImread (image_path : string)
| EvVideoCapture (src : source)
| EvRead                       (* cap.read() *)
| EvProcessFrame (frame : Image)
| EvPlt (frame : Image)        (* display_frame_with_matplotlib *)
| EvImshow (frame : Image)
| EvWaitKey
| EvRelease
| EvDestroyAllWindows.

Inductive outcome := Returned | RaisedCvError.

(** The outside: [imread] is [None] when the image cannot be decoded;
    [VideoCapture] is [None] when [cap.isOpened()] is false and otherwise
    the frames the capture delivers until [cap.read()] fails; without [gui]
    the HighGUI calls raise [cv2.error]; [waitKey n] is the key code
    returned after the [n]-th displayed frame; [stdin] holds the lines
    typed, as [.strip()] leaves them; [ocr] is the reader EasyOCR builds. *)

Record World := {
  imread : string -> option Image;
  VideoCapture : source -> option (list Image);
  gui : bool;
  waitKey : nat -> Z;
  stdin : list string;
  ocr : Reader
}.

Section EntryPoints.

Context {U : PyStr} {V : Vision}.
Variable w : World.

Definition print_plates (plates : list Plate) : list event :=
  map EvPrintPlate plates.

Definition process_image (image_path : string) (reader : Reader)
  : list event :=
  EvImread image_path ::
  match imread w image_path with
  | None => [EvPrint ("Error: Cannot load image " ++ image_path)%string]
  | Some image =>
      let '(processed_frame, plates) := process_frame image reader in
      EvProcessFrame image :: print_plates plates ++ [EvPlt processed_frame]
  end.

(** The [while True] loop, over the frames still to be delivered; [n]
    counts the frames displayed so far. *)

Fixpoint video_loop (reader : Reader) (use_matplotlib : bool)
         (frames : list Image) (n : nat) : list event * outcome :=
  match frames with
  | [] => ([EvRead; EvPrint "End of video or error reading frame."], Returned)
  | frame :: rest =>
      let '(processed_frame, plates) := process_frame frame reader in
      let evs := EvRead :: EvProcessFrame frame :: print_plates plates in
      if use_matplotlib then
        let '(t, o) := video_loop reader use_matplotlib rest (S n) in
        (evs ++ EvPlt processed_frame :: t, o)
      else if gui w then
        if (Z.land (waitKey w n) 255 =? 113)%Z then
          (evs ++ [EvImshow processed_frame; EvWaitKey], Returned)
        else
          let '(t, o) := video_loop reader use_matplotlib rest (S n) in
          (evs ++ EvImshow processed_frame :: EvWaitKey :: t, o)
      else (evs ++ [EvImshow processed_frame], RaisedCvError)
  end.

Definition play_video (video_path : source) (reader : Reader)
           (use_matplotlib : bool) : list event * outcome :=
  match VideoCapture w video_path with
  | None =>
      ([EvVideoCapture video_path;
        EvPrint ("Error: Unable to open video file: " ++
                 show_source video_path)%string], Returned)
  | Some frames =>
      let '(t, o) := video_loop reader use_matplotlib frames 0 in
      let t := EvVideoCapture video_path :: EvPrint "Press 'q' to quit." :: t in
      match o with
      | RaisedCvError => (t, RaisedCvError)
      | Returned =>
          if use_matplotlib then (t ++ [EvRelease], Returned)
          else if gui w then (t ++ [EvRelease; EvDestroyAllWindows], Returned)
          else (t ++ [EvRelease; EvDestroyAllWindows], RaisedCvError)
      end
  end.

(** [try: play_video(src, reader) except cv2.error: ...], inside the outer
    [try] of [main]. *)

Definition play_with_fallback (src : source) (reader : Reader)
           (fallback_msg : string) : list event :=
  let '(t1, o1) := play_video src reader false in
  match o1 with
  | Returned => t1
  | RaisedCvError =>
      let '(t2, o2) := play_video src reader true in
      t1 ++ EvPrint fallback_msg :: t2 ++
      match o2 with
      | Returned => []
      | RaisedCvError => [EvPrintException]
      end
  end.

Definition banner : list event :=
  [ EvPrint "License Plate Recognition System";
    EvPrint "===============================";
    EvPrint "1. Process Video";
    EvPrint "2. Use Webcam";
    EvPrint "3. Process Image" ].

Definition main : list event :=
  let choice := nth 0 (stdin w) EmptyString in
  let reader := ocr w in
  banner ++ EvInput "Enter your choice (1-3): " :: EvReader ::
  if String.eqb choice "1" then
    let video_path := nth 1 (stdin w) EmptyString in
    EvInput "Enter video file path: " ::
    play_with_fallback (Path video_path) reader
      "Falling back to Matplotlib for video display..."
  else if String.eqb choice "2" then
    play_with_fallback (Index 0) reader
      "Falling back to Matplotlib for webcam feed..."
  else if String.eqb choice "3" then
    let image_path := nth 1 (stdin w) EmptyString in
    EvInput "Enter image file path: " :: process_image image_path reader
  else [].

End EntryPoints.

(** ** A concrete collaborator, for running the pipeline

    Contours are given by their measurements; [rectangle] colours the
    outline of the rectangle green (the least [cv2.rectangle] colours, with
    any thickness) and [putText] draws no glyph. *)

Record ContourData := {
  c_area : Q;
  c_approx : list (Z * Z);
  c_rect : Rect
}.

Fixpoint mapi_from {A B} (f : nat -> A -> B) (i : nat) (l : list A) : list B :=
  match l with
  | [] => []
  | a :: l' => f i a :: mapi_from f (S i) l'
  end.

Definition green : Pixel := (0%N, 255%N, 0%N).
Definition black : Pixel := (0%N, 0%N, 0%N).

Definition on_outline (pt1 pt2 : Z * Z) (row col : nat) : bool :=
  let '(x1, y1) := pt1 in
  let '(x2, y2) := pt2 in
  let c := Z.of_nat col in
  let r := Z.of_nat row in
  ((((r =? y1) || (r =? y2)) && (x1 <=? c) && (c <=? x2)) ||
   (((c =? x1) || (c =? x2)) && (y1 <=? r) && (r <=? y2)))%Z.

Definition draw_outline (f : Image) (pt1 pt2 : Z * Z) : Image :=
  mapi_from (fun row =>
    mapi_from (fun col px => if on_outline pt1 pt2 row col then green else px) 0)
    0 f.

Definition given_contours (cs : list ContourData) : Vision.
Proof.
  refine {| Contour := ContourData;
            findContours := fun _ => cs;
            contourArea := c_area;
            approxPolyDP := c_approx;
            boundingRect := c_rect;
            putText := fun f _ _ => f;
            rectangle := draw_outline |}.
  - reflexivity.
  - intros f pt1 pt2. unfold draw_outline. generalize 0 at 2.
    induction f as [|row f IH]; intros i; simpl; [reflexivity|].
    rewrite IH. f_equal. generalize 0.
    induction row as [|px row IHrow]; intros j; simpl; [reflexivity|].
    now rewrite IHrow.
Defined.

Definition quad : list (Z * Z) := [(0, 0); (1, 0); (1, 1); (0, 1)]%Z.

Definition blank (rows cols : nat) : Image := repeat (repeat black cols) rows.

Definition const_reader (result : list OCRResult) : Reader := fun _ => result.

(** Two nested contours of a plate border on a dark frame of 100 x 30
    pixels, and readers. *)

Definition rect_inner : Rect := {| rx := 5; ry := 5; rw := 80; rh := 20 |}.
Definition rect_outer : Rect := {| rx := 4; ry := 4; rw := 82; rh := 22 |}.

Definition contour_inner : ContourData :=
  {| c_area := 1600; c_approx := quad; c_rect := rect_inner |}.
Definition contour_outer : ContourData :=
  {| c_area := 1804; c_approx := quad; c_rect := rect_outer |}.

Definition dark_frame : Image := blank 30 100.

Definition india_reader : Reader :=
  const_reader [(quad, codepoints "AB12CD3456", (9 # 10)%Q)].

(** A reader that sees two lines and a speck in a crop of 20 rows, and one
    line in any other crop. *)

Definition lines_reader : Reader :=
  fun roi =>
    if shape0 roi =? 20 then
      [ (quad, codepoints "KA01AB1234", (3 # 10)%Q);
        (quad, codepoints "XY", (99 # 100)%Q);
        (quad, codepoints "MH12DE1433", (9 # 10)%Q) ]
    else [ (quad, codepoints "DL8CAF5030", (1 # 2)%Q) ].

(** A world in which nothing can be loaded or opened. *)

Definition nothing_opens (lines : list string) : World :=
  {| imread := fun _ => None;
     VideoCapture := fun _ => None;
     gui := true;
     waitKey := fun _ => (-1)%Z;
     stdin := lines;
     ocr := india_reader |}.

(** ** Vocabulary of the statements *)

(** A word of [lo] to [hi] characters of the set [rs], followed by a text
    satisfying [K]. *)

Definition rep_then (rs : list (ascii * ascii)) (K : str -> Prop)
           (lo hi : nat) (s : str) : Prop :=
  exists w s', s = w ++ s' /\ lo <= length w /\ length w <= hi /\
               Forall (fun c => in_class rs c = true) w /\ K s'.

(** The lengths of the rows of an image: its shape. *)

Definition row_lengths (f : Image) : list nat := map (@length Pixel) f.


(** The text begins with an uppercase Latin letter or a digit [0-9]. *)

Definition begins_upper_or_digit (s : str) : bool :=
  match s with
  | c :: _ => between 65 90 c || between 48 57 c
  | [] => false
  end.

Section Vocabulary.

Context {U : PyStr} {V : Vision}.

(** The geometric tests on a contour, and the size test on its crop. *)

Definition geometry_ok (cnt : Contour) : bool :=
  negb (Qltb (contourArea cnt) 1000) &&
  (4 <=? length (approxPolyDP cnt)) &&
  (Qle_bool (3 # 2) (aspect_ratio (boundingRect cnt)) &&
   Qle_bool (aspect_ratio (boundingRect cnt)) 5).

Definition size_ok (frame : Image) (r : Rect) : bool :=
  negb ((shape0 (roi_of frame r) <? 20) || (shape1 (roi_of frame r) <? 80)).

(** A contour of [frame] is a candidate region when it passes both. *)

Definition candidate (frame : Image) (cnt : Contour) : bool :=
  geometry_ok cnt && size_ok frame (boundingRect cnt).

(** An OCR result is accepted by the text filter; the plate it makes. *)

Definition accepted (res : OCRResult) : bool :=
  let '(_, text, prob) := res in
  negb (Qltb prob conf_threshold) && (4 <=? length (normalize text)).

Definition plate_of (res : OCRResult) : Plate :=
  let '(_, text, prob) := res in
  (normalize text, detect_country (normalize text), prob).

(** The plates of one call of the reader, and the frame carrying the
    annotations of the plates of a list of calls. *)

Definition plates_of_call (reader : Reader) (call : Contour * Image)
  : list Plate :=
  map plate_of (filter accepted (reader (snd call))).

Definition annotate_call (reader : Reader) (frame : Image)
           (call : Contour * Image) : Image :=
  fold_left (fun f p => annotate f (boundingRect (fst call)) p)
            (plates_of_call reader call) frame.

Definition annotated (reader : Reader) (frame : Image)
           (calls : list (Contour * Image)) : Image :=
  fold_left (annotate_call reader) calls frame.

(** A crop is made on the view of the frame when it is the rectangle of
    the input frame carrying the annotations of the calls before it. *)

Definition made_on_view (reader : Reader) (frame0 : Image)
           (calls : list (Contour * Image)) : Prop :=
  forall n call,
    nth_error calls n = Some call ->
    snd call = roi_of (annotated reader frame0 (firstn n calls))
                      (boundingRect (fst call)).

(** What the loop over the contours of [frame0] maintains. *)

Record Inv (reader : Reader) (frame0 : Image) (st : LoopState) : Prop := {
  inv_frame : st_frame st = annotated reader frame0 (ocr_calls st);
  inv_plates :
    detected_plates st = flat_map (plates_of_call reader) (ocr_calls st);
  inv_calls : made_on_view reader frame0 (ocr_calls st)
}.

Definition confidence (p : Plate) : Q := snd p.
Definition plate_text (p : Plate) : str := fst (fst p).

End Vocabulary.

(** ** Vocabulary of the further properties *)

Definition country_of (p : Plate) : string := snd (fst p).

(** The reader that hands over only the results the text filter accepts. *)

Definition accepted_only `{U : PyStr} (reader : Reader) : Reader :=
  fun roi => filter accepted (reader roi).

(** The frames a trace processes, in order, and how often it opens and
    releases a capture. *)

Definition processed_frames (t : list event) : list Image :=
  flat_map (fun e => match e with EvProcessFrame f => [f] | _ => [] end) t.

Definition is_open (e : event) : bool :=
  match e with EvVideoCapture _ => true | _ => false end.

Definition is_release (e : event) : bool :=
  match e with EvRelease => true | _ => false end.

Definition opens (t : list event) : nat := length (filter is_open t).
Definition releases (t : list event) : nat := length (filter is_release t).

(** A world in which every capture opens and delivers [frames]. *)

Definition playing (frames : list Image) (display : bool) (keys : nat -> Z)
  : World :=
  {| imread := fun _ => None;
     VideoCapture := fun _ => Some frames;
     gui := display;
     waitKey := keys;
     stdin := [];
     ocr := india_reader |}.

Definition three_frames : list Image := [blank 1 1; blank 2 2; blank 3 3].

(** A piece of trace that processes no frame and opens or releases no
    capture; the loop of [play_video] ends with outcome [o] after processing
    the frames [shown], without opening or releasing a capture. *)

Definition quiet (t : list event) : Prop :=
  processed_frames t = [] /\ filter is_open t = [] /\ filter is_release t = [].

Definition loop_result `{U : PyStr} `{V : Vision} (w : World) (reader : Reader)
           (frames shown : list Image) (n : nat) (um : bool) (o : outcome)
  : Prop :=
  exists t, video_loop w reader um frames n = (t, o) /\
            processed_frames t = shown /\
            filter is_open t = [] /\ filter is_release t = [].

(** The plates a trace prints and the frames it hands to Matplotlib, in
    order. *)

Definition printed_plates (t : list event) : list Plate :=
  flat_map (fun e => match e with EvPrintPlate p => [p] | _ => [] end) t.

Definition plotted_frames (t : list event) : list Image :=
  flat_map (fun e => match e with EvPlt f => [f] | _ => [] end) t.

(** * Properties *)

Example pattern_sources :
  map (fun cp => (fst cp, pattern_source (snd cp))) LICENSE_PLATE_PATTERNS =
  [ ("USA", "[A-Z0-9]{1,7}");
    ("India", "[A-Z]{2}[0-9]{2}[A-Z]{1,2}[0-9]{4}");
    ("Nepal", "[A-Z]{2}-[0-9]{1,4}-[A-Z]{1,2}");
    ("Australia", "[A-Z]{1,3}[0-9]{1,4}");
    ("Canada", "[A-Z0-9]{1,7}") ]%string.
Proof. reflexivity. Qed.

(** ** The matcher decides prefix matching *)

Section Matcher.

Variable rs : list (ascii * ascii).
Variable k : str -> bool.
Variable K : str -> Prop.
Hypothesis k_spec : forall s, k s = true <-> K s.

Lemma rep_then_stop s : K s -> forall hi, rep_then rs K 0 hi s.
Proof.
  intros HK hi. exists [], s. simpl. repeat split; auto with arith.
Qed.

Lemma rep_then_empty_word lo hi s :
  rep_then rs K lo hi s ->
  (forall c s', s = c :: s' -> in_class rs c = false) ->
  lo = 0 /\ K s.
Proof.
  intros (w & s' & -> & Hlo & _ & Hw & HK) Hno.
  destruct w as [|c w]; simpl in *.
  - split; [lia | assumption].
  - inversion Hw; subst. rewrite (Hno c (w ++ s') eq_refl) in *. discriminate.
Qed.

Lemma match_rep_spec hi : forall lo s,
  match_rep rs lo hi k s = true <-> rep_then rs K lo hi s.
Proof.
  induction hi as [|hi IH]; intros lo s; simpl.
  - rewrite andb_true_iff, Nat.eqb_eq, k_spec. split.
    + intros [-> HK]. now apply rep_then_stop.
    + intros (w & s' & -> & Hlo & Hhi & _ & HK).
      destruct w; simpl in *; [split; [lia | assumption] | lia].
  - destruct s as [|c s].
    + rewrite andb_true_iff, Nat.eqb_eq, k_spec. split.
      * intros [-> HK]. now apply rep_then_stop.
      * intros H. apply rep_then_empty_word with (hi := S hi); auto.
        intros; discriminate.
    + destruct (in_class rs c) eqn:Hc.
      * rewrite orb_true_iff, andb_true_iff, Nat.eqb_eq, k_spec, IH. split.
        -- intros [(w & s' & -> & Hlo & Hhi & Hw & HK) | [-> HK]].
           ++ exists (c :: w), s'. simpl. repeat split; auto; lia.
           ++ now apply rep_then_stop.
        -- intros (w & s' & E & Hlo & Hhi & Hw & HK).
           destruct w as [|c' w]; simpl in *.
           ++ right. subst s'. split; [lia | assumption].
           ++ left. injection E as <- ->. inversion Hw; subst.
              exists w, s'. repeat split; auto; lia.
      * rewrite andb_true_iff, Nat.eqb_eq, k_spec. split.
        -- intros [-> HK]. now apply rep_then_stop.
        -- intros H. apply rep_then_empty_word with (hi := S hi); auto.
           intros c' s' E. now injection E as <- _.
Qed.

End Matcher.

Lemma re_match_spec p : forall s,
  re_match p s = true <-> matches_prefix p s.
Proof.
  induction p as [|it p IH]; intros s.
  - simpl. split; [|reflexivity].
    intros _. exists [], s. split; [reflexivity | constructor].
  - destruct it as [rs lo hi | a]; simpl.
    + rewrite (match_rep_spec rs (re_match p) (matches_prefix p) IH). split.
      * intros (w & s' & -> & Hlo & Hhi & Hw & pre & suf & -> & Hp).
        exists (w ++ pre), suf. split; [now rewrite app_assoc|].
        constructor; [now constructor | assumption].
      * intros (pre & suf & -> & Hl). inversion Hl as [|? ? w1 w2 Hit Hp]; subst.
        inversion Hit; subst.
        exists w1, (w2 ++ suf). rewrite app_assoc. repeat split; auto.
        now exists w2, suf.
    + destruct s as [|c s].
      * split; [discriminate|].
        intros (pre & suf & E & Hl). inversion Hl as [|? ? w1 w2 Hit Hp]; subst.
        inversion Hit; subst. discriminate.
      * rewrite andb_true_iff, N.eqb_eq, IH. split.
        -- intros [-> (pre & suf & -> & Hp)].
           exists ([N_of_ascii a] ++ pre), suf. split; [reflexivity|].
           constructor; [constructor | assumption].
        -- intros (pre & suf & E & Hl). inversion Hl as [|? ? w1 w2 Hit Hp]; subst.
           inversion Hit; subst. simpl in E. injection E as -> ->.
           split; [reflexivity | now exists w2, suf].
Qed.

Lemma re_match_false p s : re_match p s = false <-> ~ matches_prefix p s.
Proof.
  rewrite <- re_match_spec. destruct (re_match p s); split; intros H;
    try reflexivity; try discriminate; try congruence.
Qed.

(** ** [detect_country] *)

Lemma detect_country_in_first_match table text :
  (exists before country p after,
      table = before ++ (country, p) :: after /\
      matches_prefix p (remove_spaces text) /\
      Forall (fun cp => ~ matches_prefix (snd cp) (remove_spaces text)) before /\
      detect_country_in table text = country) \/
  (Forall (fun cp => ~ matches_prefix (snd cp) (remove_spaces text)) table /\
   detect_country_in table text = "Unknown"%string).
Proof.
  induction table as [|[country p] rest IH]; simpl.
  - right. split; [constructor | reflexivity].
  - destruct (re_match p (remove_spaces text)) eqn:Hm.
    + left. exists [], country, p, rest. simpl.
      repeat split; [now apply re_match_spec | constructor].
    + apply re_match_false in Hm.
      destruct IH as [(before & c & q & after & -> & Hq & Hb & Hc) | [Hall Hu]].
      * left. exists ((country, p) :: before), c, q, after. simpl.
        repeat split; auto.
      * right. split; [constructor; assumption | assumption].
Qed.

(** C7: [detect_country] goes through the pattern table in its declared
    order and returns the label of the first pattern that matches a prefix
    of the text without its spaces, trailing characters being allowed (as for
    a text of ten letters, beyond the seven the first pattern takes); it
    returns "Unknown" when no pattern matches. *)
Theorem detect_country_first_match :
  forall text : str,
    ((exists before country p after,
        LICENSE_PLATE_PATTERNS = before ++ (country, p) :: after /\
        matches_prefix p (remove_spaces text) /\
        Forall (fun cp => ~ matches_prefix (snd cp) (remove_spaces text))
               before /\
        detect_country text = country) \/
     (Forall (fun cp => ~ matches_prefix (snd cp) (remove_spaces text))
             LICENSE_PLATE_PATTERNS /\
      detect_country text = "Unknown"%string)) /\
    detect_country (codepoints "ABCDEFGHIJ") = "USA"%string.
Proof.
  intros text. split.
  - apply detect_country_in_first_match.
  - reflexivity.
Qed.

Lemma match_rep_zero rs hi k s :
  (forall s', k s' = true) -> match_rep rs 0 hi k s = true.
Proof.
  intros Hk. destruct hi, s; simpl; rewrite ?Hk; try reflexivity.
  destruct (in_class rs c); [apply orb_true_r | reflexivity].
Qed.

Lemma match_rep_needs_first rs lo hi k s :
  match s with
  | c :: _ => in_class rs c = false
  | [] => True
  end ->
  match_rep rs (S lo) hi k s = false.
Proof.
  intros H. destruct hi, s; simpl; try reflexivity.
  now rewrite H.
Qed.

Lemma in_class_upper_or_digit c :
  in_class [AZ; d09] c = between 65 90 c || between 48 57 c.
Proof.
  unfold in_class, in_range, between. simpl. now rewrite orb_false_r.
Qed.

Lemma in_class_upper c : in_class [AZ] c = between 65 90 c.
Proof.
  unfold in_class, in_range, between. simpl. now rewrite orb_false_r.
Qed.

Lemma USA_matches s : re_match USA_pattern s = begins_upper_or_digit s.
Proof.
  destruct s as [|c s]; [reflexivity|].
  change (re_match USA_pattern (c :: s))
    with (if in_class [AZ; d09] c
          then match_rep [AZ; d09] 0 6 (re_match []) s || false
          else false).
  unfold begins_upper_or_digit. rewrite in_class_upper_or_digit.
  destruct (between 65 90 c || between 48 57 c); [|reflexivity].
  now rewrite match_rep_zero.
Qed.

Lemma upper_first_fails lo hi p s :
  begins_upper_or_digit s = false -> re_match (Rep [AZ] (S lo) hi :: p) s = false.
Proof.
  intros H. simpl. apply match_rep_needs_first.
  destruct s as [|c s]; [exact I|].
  rewrite in_class_upper. simpl in H.
  now apply orb_false_iff in H.
Qed.

Lemma detect_country_cases text :
  detect_country text =
  if begins_upper_or_digit (remove_spaces text) then "USA"%string
  else "Unknown"%string.
Proof.
  unfold detect_country, LICENSE_PLATE_PATTERNS, detect_country_in.
  rewrite USA_matches.
  destruct (begins_upper_or_digit (remove_spaces text)) eqn:Hb; [reflexivity|].
  unfold India_pattern, Nepal_pattern, Australia_pattern.
  rewrite !upper_first_fails by assumption.
  unfold Canada_pattern. change [Rep [AZ; d09] 1 7] with USA_pattern.
  now rewrite USA_matches, Hb.
Qed.

(** C3: on every text, hence on every text of alphanumeric characters and
    whitespace that the acceptance filter forwards, [detect_country] is
    "USA" when the text without its spaces (the character U+0020) begins
    with a letter [A-Z] or a digit [0-9], and "Unknown" otherwise; it is
    never "India", "Nepal", "Australia" or "Canada". *)
Theorem detect_country_usa_or_unknown :
  forall text : str,
    detect_country text =
      (if begins_upper_or_digit (remove_spaces text) then "USA"%string
       else "Unknown"%string) /\
    detect_country text <> "India"%string /\
    detect_country text <> "Nepal"%string /\
    detect_country text <> "Australia"%string /\
    detect_country text <> "Canada"%string.
Proof.
  intros text. rewrite detect_country_cases.
  destruct (begins_upper_or_digit (remove_spaces text));
    repeat split; discriminate.
Qed.

(** A tab is whitespace but not a space: it stays in front of the text. *)
Example detect_country_leading_tab :
  detect_country (9%N :: codepoints "AB12CD3456") = "Unknown"%string.
Proof. reflexivity. Qed.

(** C2: "XYZ123" is labelled "USA", and every text that the Canada pattern
    matches is labelled "USA", never "Canada". *)
Theorem canada_shadowed_by_usa :
  detect_country (codepoints "XYZ123") = "USA"%string /\
  forall text : str,
    re_match Canada_pattern (remove_spaces text) = true ->
    detect_country text = "USA"%string /\
    detect_country text <> "Canada"%string.
Proof.
  split; [reflexivity|].
  intros text H. rewrite detect_country_cases.
  change Canada_pattern with USA_pattern in H. rewrite USA_matches in H.
  rewrite H. split; [reflexivity | discriminate].
Qed.

Lemma canada_shadowed_by_usa_witness :
  re_match Canada_pattern (remove_spaces (codepoints "XYZ 123")) = true /\
  detect_country (codepoints "XYZ 123") = "USA"%string /\
  detect_country (codepoints "XYZ 123") <> "Canada"%string.
Proof.
  split; [reflexivity|].
  apply (proj2 canada_shadowed_by_usa (codepoints "XYZ 123")). reflexivity.
Defined.

(** C9: two successive calls of [detect_country] on the same text return
    the same label, and leave the pattern table as it was; from the
    module's initial state the label is [detect_country text]. *)
Theorem detect_country_deterministic :
  forall (g : Globals) (text : str),
    let '(c1, g1) := detect_country_call text g in
    let '(c2, g2) := detect_country_call text g1 in
    c1 = c2 /\ patterns_of g2 = patterns_of g /\
    fst (detect_country_call text module_globals) = detect_country text.
Proof.
  intros g text. unfold detect_country_call. simpl.
  repeat split.
Qed.

(** ** The frame loop *)

Section PipelineFacts.

Context {U : PyStr} {V : Vision}.
Variable reader : Reader.

Lemma process_result_accepted r st res :
  process_result r st res =
  if accepted res then
    {| st_frame := annotate (st_frame st) r (plate_of res);
       detected_plates := detected_plates st ++ [plate_of res];
       ocr_calls := ocr_calls st |}
  else st.
Proof.
  destruct res as [[bbox text] prob]. unfold process_result, accepted, plate_of.
  destruct (Qltb prob conf_threshold); simpl; [reflexivity|].
  destruct (4 <=? length (normalize text)); reflexivity.
Qed.

Lemma fold_process_result r result : forall st,
  fold_left (process_result r) result st =
  {| st_frame := fold_left (fun f p => annotate f r p)
                           (map plate_of (filter accepted result)) (st_frame st);
     detected_plates :=
       detected_plates st ++ map plate_of (filter accepted result);
     ocr_calls := ocr_calls st |}.
Proof.
  induction result as [|res result IH]; intros st; simpl.
  - rewrite app_nil_r. now destruct st.
  - rewrite IH, process_result_accepted.
    destruct (accepted res); simpl; [|reflexivity].
    now rewrite <- app_assoc.
Qed.

Lemma process_contour_cases st cnt :
  process_contour reader st cnt =
  if candidate (st_frame st) cnt then
    let call := (cnt, roi_of (st_frame st) (boundingRect cnt)) in
    {| st_frame := annotate_call reader (st_frame st) call;
       detected_plates := detected_plates st ++ plates_of_call reader call;
       ocr_calls := ocr_calls st ++ [call] |}
  else st.
Proof.
  unfold process_contour, candidate, geometry_ok, size_ok.
  set (roi := roi_of (st_frame st) (boundingRect cnt)).
  destruct (Qltb (contourArea cnt) 1000); [reflexivity|].
  destruct (4 <=? length (approxPolyDP cnt)); [|reflexivity].
  destruct (Qle_bool (3 # 2) (aspect_ratio (boundingRect cnt)) &&
            Qle_bool (aspect_ratio (boundingRect cnt)) 5); [|reflexivity].
  destruct ((shape0 roi <? 20) || (shape1 roi <? 80)); [reflexivity|].
  cbn [negb andb]. unfold annotate_call, plates_of_call. cbn [fst snd].
  destruct (reader roi) eqn:E.
  - cbn. now rewrite app_nil_r.
  - rewrite <- E. now rewrite fold_process_result.
Qed.

(** Shapes: drawing keeps the length of every row, and the size test looks
    at nothing else. *)

Lemma row_lengths_crop f x y w h :
  row_lengths (crop f x y w h) =
  map (fun n => Nat.min (x + w - x) (n - x)) (slice y (y + h) (row_lengths f)).
Proof.
  unfold row_lengths, crop, slice.
  rewrite skipn_map, firstn_map, !map_map.
  apply map_ext. intros row. now rewrite length_firstn, length_skipn.
Qed.

Lemma shape0_row_lengths img : shape0 img = length (row_lengths img).
Proof. unfold shape0, row_lengths. now rewrite length_map. Qed.

Lemma shape1_row_lengths img : shape1 img = hd 0 (row_lengths img).
Proof. now destruct img. Qed.

Lemma size_ok_row_lengths f f' r :
  row_lengths f = row_lengths f' -> size_ok f r = size_ok f' r.
Proof.
  intros E. unfold size_ok, roi_of.
  now rewrite !shape0_row_lengths, !shape1_row_lengths, !row_lengths_crop, E.
Qed.

Lemma candidate_row_lengths f f' cnt :
  row_lengths f = row_lengths f' -> candidate f cnt = candidate f' cnt.
Proof.
  intros E. unfold candidate. now rewrite (size_ok_row_lengths f f' _ E).
Qed.

Lemma annotate_row_lengths f r p : row_lengths (annotate f r p) = row_lengths f.
Proof.
  unfold annotate, row_lengths. now rewrite rectangle_shape, putText_shape.
Qed.

Lemma annotate_call_row_lengths f call :
  row_lengths (annotate_call reader f call) = row_lengths f.
Proof.
  unfold annotate_call. generalize (plates_of_call reader call).
  intros ps; revert f. induction ps as [|p ps IH]; intros f; simpl;
    [reflexivity|].
  now rewrite IH, annotate_row_lengths.
Qed.

Lemma annotated_row_lengths f calls :
  row_lengths (annotated reader f calls) = row_lengths f.
Proof.
  unfold annotated. revert f.
  induction calls as [|c calls IH]; intros f; simpl; [reflexivity|].
  now rewrite IH, annotate_call_row_lengths.
Qed.

End PipelineFacts.

(** ** What the loop maintains

    At every point of the loop the frame is the input frame carrying the
    annotations of the calls made so far, the plates are those of these
    calls, in order, and every call was made on the crop of the frame as it
    was then. *)

Section LoopInvariant.

Context {U : PyStr} {V : Vision}.
Variable reader : Reader.
Variable frame0 : Image.

Lemma Inv_initial : Inv reader frame0 (initial_state frame0).
Proof.
  split; try reflexivity.
  intros n call H. destruct n; discriminate.
Qed.

Lemma made_on_view_snoc calls call :
  made_on_view reader frame0 calls ->
  snd call = roi_of (annotated reader frame0 calls) (boundingRect (fst call)) ->
  made_on_view reader frame0 (calls ++ [call]).
Proof.
  intros Hc Hnew n c Hn.
  destruct (Nat.lt_ge_cases n (length calls)) as [Hlt | Hge].
  - rewrite nth_error_app1 in Hn by assumption.
    rewrite firstn_app. replace (n - length calls) with 0 by lia.
    simpl. rewrite app_nil_r. now apply Hc.
  - rewrite nth_error_app2 in Hn by assumption.
    destruct (n - length calls) as [|m] eqn:E.
    + injection Hn as <-. replace n with (length calls) by lia.
      rewrite firstn_app, firstn_all, Nat.sub_diag. simpl.
      now rewrite app_nil_r.
    + destruct m; discriminate.
Qed.

Lemma Inv_row_lengths st :
  Inv reader frame0 st -> row_lengths (st_frame st) = row_lengths frame0.
Proof.
  intros [Hf _ _]. rewrite Hf. apply annotated_row_lengths.
Qed.

Lemma Inv_step st cnt :
  Inv reader frame0 st -> Inv reader frame0 (process_contour reader st cnt).
Proof.
  intros HI. rewrite process_contour_cases.
  destruct (candidate (st_frame st) cnt); [|assumption].
  destruct HI as [Hf Hp Hc]. split; cbn [st_frame detected_plates ocr_calls].
  - unfold annotated. rewrite fold_left_app. cbn [fold_left].
    fold (annotated reader frame0 (ocr_calls st)). now rewrite <- Hf.
  - rewrite flat_map_app, Hp. simpl. now rewrite app_nil_r.
  - apply made_on_view_snoc; [assumption|]. simpl. now rewrite Hf.
Qed.

Lemma Inv_run cs : forall st,
  Inv reader frame0 st -> Inv reader frame0 (run_contours reader cs st).
Proof.
  unfold run_contours.
  induction cs as [|c cs IH]; intros st HI; simpl; [assumption|].
  apply IH. now apply Inv_step.
Qed.

(** The reader is called on the candidate regions of the input frame, in
    the order of the contours. *)

Lemma calls_run cs : forall st,
  Inv reader frame0 st ->
  map fst (ocr_calls (run_contours reader cs st)) =
  map fst (ocr_calls st) ++ filter (candidate frame0) cs.
Proof.
  unfold run_contours.
  induction cs as [|c cs IH]; intros st HI; simpl.
  - now rewrite app_nil_r.
  - rewrite IH by now apply Inv_step.
    rewrite process_contour_cases.
    rewrite (candidate_row_lengths _ _ c (Inv_row_lengths HI)).
    destruct (candidate frame0 c); [|reflexivity].
    cbn [ocr_calls]. rewrite map_app. simpl. now rewrite <- app_assoc.
Qed.

Lemma Inv_process_frame : Inv reader frame0 (process_frame_state frame0 reader).
Proof. apply Inv_run, Inv_initial. Qed.

Lemma calls_process_frame :
  map fst (ocr_calls (process_frame_state frame0 reader)) =
  filter (candidate frame0) (findContours frame0).
Proof.
  unfold process_frame_state. now rewrite calls_run by apply Inv_initial.
Qed.

Lemma annotated_no_plate calls :
  flat_map (plates_of_call reader) calls = [] ->
  annotated reader frame0 calls = frame0.
Proof.
  unfold annotated. generalize frame0.
  induction calls as [|c calls IH]; intros f H; simpl in *; [reflexivity|].
  apply app_eq_nil in H as [Hc Hrest].
  rewrite <- (IH f Hrest) at 2. f_equal.
  unfold annotate_call. now rewrite Hc.
Qed.

Lemma made_on_view_split calls before call after :
  made_on_view reader frame0 calls ->
  calls = before ++ call :: after ->
  snd call = roi_of (annotated reader frame0 before) (boundingRect (fst call)).
Proof.
  intros Hc ->.
  specialize (Hc (length before) call).
  rewrite nth_error_app2, Nat.sub_diag in Hc by lia.
  specialize (Hc eq_refl).
  rewrite firstn_app, firstn_all, Nat.sub_diag in Hc. simpl in Hc.
  now rewrite app_nil_r in Hc.
Qed.

End LoopInvariant.

(** ** The frame pipeline *)

Lemma Qltb_false a b : Qltb a b = false -> (b <= a)%Q.
Proof.
  unfold Qltb. intros H. apply negb_false_iff in H. now apply Qle_bool_iff.
Qed.

Lemma geometry_ok_true `{V : Vision} (cnt : Contour) :
  geometry_ok cnt = true ->
  (1000 <= contourArea cnt)%Q /\
  4 <= length (approxPolyDP cnt) /\
  (3 # 2 <= aspect_ratio (boundingRect cnt))%Q /\
  (aspect_ratio (boundingRect cnt) <= 5)%Q.
Proof.
  unfold geometry_ok. rewrite !andb_true_iff, negb_true_iff, Nat.leb_le.
  rewrite !Qle_bool_iff. intros [[Ha Hv] [Hlo Hhi]].
  repeat split; auto. now apply Qltb_false.
Qed.

Lemma size_ok_true (frame : Image) (r : Rect) :
  size_ok frame r = true ->
  20 <= shape0 (roi_of frame r) /\ 80 <= shape1 (roi_of frame r).
Proof.
  unfold size_ok. rewrite negb_true_iff, orb_false_iff, !Nat.ltb_ge. tauto.
Qed.

Lemma not_square (r : Rect) :
  (3 # 2 <= aspect_ratio r)%Q -> rw r <> rh r.
Proof.
  unfold aspect_ratio, Qle. simpl. intros H E. rewrite E in H. lia.
Qed.

(** C5: the reader is called for a contour only if the contour's area is
    at least 1000, its polygon has at least 4 vertices, the ratio of the
    bounding rectangle's width to its height is between 1.5 and 5.0 (so the
    rectangle is not a square), and the crop, which has the size of the
    crop of the input frame, has at least 20 rows and 80 columns. *)
Theorem ocr_only_on_candidates :
  forall (U : PyStr) (V : Vision) (frame : Image) (reader : Reader)
         (cnt : Contour) (roi : Image),
    In (cnt, roi) (ocr_calls (process_frame_state frame reader)) ->
    In cnt (findContours frame) /\
    (1000 <= contourArea cnt)%Q /\
    4 <= length (approxPolyDP cnt) /\
    (3 # 2 <= aspect_ratio (boundingRect cnt))%Q /\
    (aspect_ratio (boundingRect cnt) <= 5)%Q /\
    rw (boundingRect cnt) <> rh (boundingRect cnt) /\
    80 <= shape1 roi /\ 20 <= shape0 roi /\
    shape0 roi = shape0 (roi_of frame (boundingRect cnt)) /\
    shape1 roi = shape1 (roi_of frame (boundingRect cnt)).
Proof.
  intros U V frame reader cnt roi Hin.
  pose proof (Inv_process_frame reader frame) as HI.
  assert (Hc : candidate frame cnt = true /\ In cnt (findContours frame)).
  { apply (in_map fst) in Hin. rewrite calls_process_frame in Hin.
    apply filter_In in Hin. tauto. }
  destruct Hc as [Hc Hcnt]. unfold candidate in Hc.
  apply andb_true_iff in Hc as [Hg Hs].
  apply geometry_ok_true in Hg as (Ha & Hv & Hlo & Hhi).
  apply size_ok_true in Hs as [H20 H80].
  apply In_nth_error in Hin as [n Hn].
  apply (inv_calls HI) in Hn. simpl in Hn.
  assert (Hrl : row_lengths roi = row_lengths (roi_of frame (boundingRect cnt))).
  { rewrite Hn. unfold roi_of.
    now rewrite !row_lengths_crop, annotated_row_lengths. }
  assert (H0 : shape0 roi = shape0 (roi_of frame (boundingRect cnt)))
    by now rewrite !shape0_row_lengths, Hrl.
  assert (H1 : shape1 roi = shape1 (roi_of frame (boundingRect cnt)))
    by now rewrite !shape1_row_lengths, Hrl.
  repeat split; auto; try lia.
  now apply not_square.
Qed.

Lemma ocr_only_on_candidates_witness :
  In (contour_inner, roi_of dark_frame rect_inner)
     (ocr_calls (@process_frame_state ascii_only
                   (given_contours [contour_inner; contour_outer])
                   dark_frame india_reader)) /\
  (1000 <= c_area contour_inner)%Q /\
  rw rect_inner <> rh rect_inner /\
  80 <= shape1 (roi_of dark_frame rect_inner) /\
  20 <= shape0 (roi_of dark_frame rect_inner).
Proof.
  assert (Hin : In (contour_inner, roi_of dark_frame rect_inner)
     (ocr_calls (@process_frame_state ascii_only
                   (given_contours [contour_inner; contour_outer])
                   dark_frame india_reader))).
  { vm_compute. left. reflexivity. }
  split; [exact Hin|].
  pose proof (@ocr_only_on_candidates ascii_only
                (given_contours [contour_inner; contour_outer])
                dark_frame india_reader contour_inner
                (roi_of dark_frame rect_inner) Hin) as H.
  simpl in H. tauto.
Defined.

Lemma threshold_above_fifth : (1 # 5 <= conf_threshold)%Q.
Proof. unfold Qle, conf_threshold. simpl. lia. Qed.

Lemma plate_of_accepted `{U : PyStr} (res : OCRResult) :
  accepted res = true ->
  (conf_threshold <= confidence (plate_of res))%Q /\
  (1 # 5 <= confidence (plate_of res))%Q /\
  4 <= length (plate_text (plate_of res)) /\
  Forall (fun c => isalnum c || isspace c = true) (plate_text (plate_of res)).
Proof.
  destruct res as [[bbox text] prob].
  unfold accepted, plate_of, confidence, plate_text. cbn [fst snd].
  rewrite andb_true_iff, negb_true_iff, Nat.leb_le. intros [Hp Hl].
  apply Qltb_false in Hp.
  repeat split; auto.
  - eapply Qle_trans; [apply threshold_above_fifth | exact Hp].
  - apply Forall_forall. intros c Hc. unfold normalize in Hc.
    now apply filter_In in Hc.
Qed.

Lemma plates_come_from_accepted `{U : PyStr} `{V : Vision}
      (frame : Image) (reader : Reader) (p : Plate) :
  In p (snd (process_frame frame reader)) ->
  exists res, accepted res = true /\ p = plate_of res.
Proof.
  unfold process_frame. simpl.
  rewrite (inv_plates (Inv_process_frame reader frame)).
  intros Hin. apply in_flat_map in Hin as (call & _ & Hin).
  unfold plates_of_call in Hin. apply in_map_iff in Hin as (res & <- & Hres).
  apply filter_In in Hres. exists res. tauto.
Qed.

(** C6: every plate returned by [process_frame] has a confidence of at
    least 0.2 (the binary64 number, and so the rational 1/5), and a text of
    at least 4 characters, all alphanumeric or whitespace; an OCR result
    whose normalized text has 3 characters changes nothing, whatever its
    confidence. *)
Theorem plates_pass_filter :
  forall (U : PyStr) (V : Vision) (frame : Image) (reader : Reader),
    Forall (fun p =>
              (conf_threshold <= confidence p)%Q /\
              (1 # 5 <= confidence p)%Q /\
              4 <= length (plate_text p) /\
              Forall (fun c => isalnum c || isspace c = true) (plate_text p))
           (snd (process_frame frame reader)) /\
    forall (r : Rect) (st : LoopState) (bbox : BBox) (text : str) (prob : Q),
      length (normalize text) = 3 ->
      process_result r st (bbox, text, prob) = st.
Proof.
  intros U V frame reader. split.
  - apply Forall_forall. intros p Hp.
    apply plates_come_from_accepted in Hp as (res & Hacc & ->).
    now apply plate_of_accepted.
  - intros r st bbox text prob H3. unfold process_result.
    destruct (Qltb prob conf_threshold); [reflexivity|].
    now rewrite H3.
Qed.

Lemma plates_pass_filter_witness :
  @normalize ascii_only (codepoints "AB-1") = codepoints "AB1" /\
  @process_result ascii_only (given_contours []) rect_inner
    (@initial_state (given_contours []) dark_frame)
    (quad, codepoints "AB-1", (9 # 10)%Q) =
  @initial_state (given_contours []) dark_frame.
Proof.
  split; [reflexivity|].
  apply (proj2 (@plates_pass_filter ascii_only (given_contours [])
                  dark_frame india_reader)).
  reflexivity.
Defined.

(** C8: the plates returned for a frame are, for the calls of the reader
    in the order they were made, the plates of the accepted results of the
    call in the order the reader gave them, one plate per accepted result;
    the calls are made in the order of the contours.  Confidence plays no
    part: with two contours and a reader giving confidences 0.3, 0.99 (too
    short a text) and 0.9 on the first and 0.5 on the second, the plates have
    confidences 0.3, 0.9, 0.5. *)
Theorem plates_in_discovery_order :
  (forall (U : PyStr) (V : Vision) (frame : Image) (reader : Reader),
      snd (process_frame frame reader) =
        flat_map (fun call => map plate_of (filter accepted (reader (snd call))))
                 (ocr_calls (process_frame_state frame reader)) /\
      map fst (ocr_calls (process_frame_state frame reader)) =
        filter (candidate frame) (findContours frame)) /\
  map confidence
      (snd (@process_frame ascii_only
              (given_contours [contour_inner; contour_outer])
              dark_frame lines_reader)) =
    [(3 # 10)%Q; (9 # 10)%Q; (1 # 2)%Q] /\
  map confidence
      (snd (@process_frame ascii_only
              (given_contours [contour_outer; contour_inner])
              dark_frame lines_reader)) =
    [(1 # 2)%Q; (3 # 10)%Q; (9 # 10)%Q].
Proof.
  split; [|split; vm_compute; reflexivity].
  intros U V frame reader. split.
  - unfold process_frame. simpl.
    apply (inv_plates (Inv_process_frame reader frame)).
  - apply calls_process_frame.
Qed.

(** ** The crop passed to the reader *)

(** C4, as the code has it: the crop passed to the reader for a region is
    the rectangle of the frame as it is when the region is reached, with the
    annotations of the plates detected in the regions before it; it is the
    rectangle of the input frame when no plate was detected before. *)
Theorem ocr_sees_annotated_frame :
  forall (U : PyStr) (V : Vision) (frame : Image) (reader : Reader)
         (before after : list (Contour * Image))
         (cnt : Contour) (roi : Image),
    ocr_calls (process_frame_state frame reader) =
      before ++ (cnt, roi) :: after ->
    roi = roi_of (annotated reader frame before) (boundingRect cnt) /\
    (flat_map (plates_of_call reader) before = [] ->
     roi = roi_of frame (boundingRect cnt)).
Proof.
  intros U V frame reader before after cnt roi E.
  pose proof (@made_on_view_split U V reader frame _ _ _ _
                (inv_calls (Inv_process_frame reader frame)) E) as H.
  simpl in H. split; [exact H|].
  intros Hnone. now rewrite H, annotated_no_plate.
Qed.

Lemma ocr_sees_annotated_frame_witness :
  let V := given_contours [contour_inner; contour_outer] in
  let trace :=
    @ocr_calls V (@process_frame_state ascii_only V dark_frame india_reader) in
  let first_roi := snd (hd (contour_inner, []) trace) in
  trace = [] ++ (contour_inner, first_roi) :: tl trace /\
  first_roi = roi_of dark_frame rect_inner.
Proof.
  intros V trace first_roi.
  assert (E : trace = [] ++ (contour_inner, first_roi) :: tl trace)
    by (vm_compute; reflexivity).
  split; [exact E|].
  destruct (@ocr_sees_annotated_frame ascii_only V dark_frame india_reader
              [] (tl trace) contour_inner first_roi E) as [_ H].
  apply H. reflexivity.
Defined.

(** The claim of C4 as stated fails: the second of two nested regions is
    read after the first one's rectangle has been drawn inside it. *)
Lemma ocr_crop_not_of_input_frame :
  ~ (forall (cnt : ContourData) (roi : Image),
        In (cnt, roi)
           (@ocr_calls (given_contours [contour_inner; contour_outer])
              (@process_frame_state ascii_only
                 (given_contours [contour_inner; contour_outer])
                 dark_frame india_reader)) ->
        roi = roi_of dark_frame (c_rect cnt)).
Proof.
  intros H.
  pose (V := given_contours [contour_inner; contour_outer]).
  pose (call := nth 1 (@ocr_calls V
                  (@process_frame_state ascii_only V dark_frame india_reader))
                  (contour_inner, [])).
  assert (Hin : In call (@ocr_calls V
                  (@process_frame_state ascii_only V dark_frame india_reader)))
    by (vm_compute; right; left; reflexivity).
  specialize (H (fst call) (snd call)).
  rewrite <- surjective_pairing in H. specialize (H Hin).
  apply (f_equal (fun img => nth 1 (nth 1 img []) black)) in H.
  vm_compute in H. discriminate H.
Qed.

(** ** An India-shaped text *)

Lemma normalize_ascii_alnum `{U : PyStr} (t : str) :
  Forall (fun c => (c <? 128)%N && ascii_isalnum c = true) t ->
  normalize t = t.
Proof.
  unfold normalize. induction 1 as [|c t Hc _ IH]; simpl; [reflexivity|].
  apply andb_true_iff in Hc as [Hlt Ha]. apply N.ltb_lt in Hlt.
  now rewrite (isalnum_ascii Hlt), Ha, IH.
Qed.

Lemma accepted_india `{U : PyStr} (bbox : BBox) (prob : Q) :
  (conf_threshold <= prob)%Q ->
  filter accepted [(bbox, codepoints "AB12CD3456", prob)] =
  [(bbox, codepoints "AB12CD3456", prob)] /\
  plate_of (bbox, codepoints "AB12CD3456", prob) =
  (codepoints "AB12CD3456", "USA"%string, prob).
Proof.
  intros Hp.
  assert (Hn : normalize (codepoints "AB12CD3456") = codepoints "AB12CD3456")
    by (apply normalize_ascii_alnum; repeat constructor).
  assert (Hq : Qltb prob conf_threshold = false)
    by (unfold Qltb; apply negb_false_iff; now apply Qle_bool_iff).
  unfold filter, accepted, plate_of. rewrite Hn, Hq. split; reflexivity.
Qed.

(** C1, what the code does: on a frame with exactly one candidate region
    on which the reader returns the single result "AB12CD3456" with a
    confidence of at least 0.2, [process_frame] returns exactly one plate,
    and its country is "USA", not "India". *)
Theorem india_plate_labelled_usa :
  forall (U : PyStr) (V : Vision) (frame : Image) (reader : Reader)
         (cnt : Contour) (bbox : BBox) (prob : Q),
    filter (candidate frame) (findContours frame) = [cnt] ->
    reader (roi_of frame (boundingRect cnt)) =
      [(bbox, codepoints "AB12CD3456", prob)] ->
    (conf_threshold <= prob)%Q ->
    snd (process_frame frame reader) =
      [(codepoints "AB12CD3456", "USA"%string, prob)].
Proof.
  intros U V frame reader cnt bbox prob Hone Hres Hprob.
  pose proof (Inv_process_frame reader frame) as [_ Hplates Hcalls].
  pose proof (calls_process_frame reader frame) as Hfst.
  rewrite Hone in Hfst. unfold process_frame. cbn [snd].
  destruct (ocr_calls (process_frame_state frame reader))
    as [|[c roi] [|call calls]]; try discriminate Hfst.
  simpl in Hfst. injection Hfst as ->.
  specialize (Hcalls 0 (cnt, roi) eq_refl). simpl in Hcalls.
  rewrite Hplates. simpl. rewrite app_nil_r.
  unfold plates_of_call. cbn [snd]. rewrite Hcalls, Hres.
  destruct (accepted_india bbox Hprob) as [-> Hplate].
  cbn [map]. now rewrite Hplate.
Qed.

Lemma india_plate_labelled_usa_witness :
  snd (@process_frame ascii_only (given_contours [contour_inner])
         dark_frame india_reader) =
    [(codepoints "AB12CD3456", "USA"%string, (9 # 10)%Q)].
Proof.
  apply (@india_plate_labelled_usa ascii_only (given_contours [contour_inner])
           dark_frame india_reader contour_inner quad (9 # 10)%Q).
  - reflexivity.
  - reflexivity.
  - unfold Qle, conf_threshold. simpl. lia.
Defined.

(** ** Entry points *)

(** C10: when the image cannot be decoded, [process_image] loads once,
    prints the error with the path and returns; when the capture cannot be
    opened, [play_video] opens once, prints the error with the source and
    returns normally, so the [cv2.error] fallback of [main] makes no second
    call; in both cases [main] stops after the message: no frame is read or
    processed and nothing is loaded or opened again. *)
Theorem load_failure_fails_fast :
  forall (U : PyStr) (V : Vision) (w : World) (reader : Reader),
    (forall image_path : string,
        imread w image_path = None ->
        process_image w image_path reader =
          [EvImread image_path;
           EvPrint ("Error: Cannot load image " ++ image_path)%string]) /\
    (forall (video_path : source) (use_matplotlib : bool),
        VideoCapture w video_path = None ->
        play_video w video_path reader use_matplotlib =
          ([EvVideoCapture video_path;
            EvPrint ("Error: Unable to open video file: " ++
                     show_source video_path)%string], Returned)) /\
    (forall (video_path : source) (msg : string),
        VideoCapture w video_path = None ->
        play_with_fallback w video_path reader msg =
          [EvVideoCapture video_path;
           EvPrint ("Error: Unable to open video file: " ++
                    show_source video_path)%string]) /\
    (forall image_path : string,
        stdin w = ["3"; image_path]%string ->
        imread w image_path = None ->
        main w =
          banner ++
          [EvInput "Enter your choice (1-3): "; EvReader;
           EvInput "Enter image file path: ";
           EvImread image_path;
           EvPrint ("Error: Cannot load image " ++ image_path)%string]) /\
    (forall video_path : string,
        stdin w = ["1"; video_path]%string ->
        VideoCapture w (Path video_path) = None ->
        main w =
          banner ++
          [EvInput "Enter your choice (1-3): "; EvReader;
           EvInput "Enter video file path: ";
           EvVideoCapture (Path video_path);
           EvPrint ("Error: Unable to open video file: " ++ video_path)%string]) /\
    (stdin w = ["2"]%string ->
     VideoCapture w (Index 0) = None ->
     main w =
       banner ++
       [EvInput "Enter your choice (1-3): "; EvReader;
        EvVideoCapture (Index 0);
        EvPrint "Error: Unable to open video file: 0"]).
Proof.
  intros U V w reader.
  assert (Hplay : forall video_path um,
             VideoCapture w video_path = None ->
             play_video w video_path reader um =
             ([EvVideoCapture video_path;
               EvPrint ("Error: Unable to open video file: " ++
                        show_source video_path)%string], Returned)).
  { intros video_path um H. unfold play_video. now rewrite H. }
  repeat split.
  - intros image_path H. unfold process_image. now rewrite H.
  - exact Hplay.
  - intros video_path msg H. unfold play_with_fallback.
    now rewrite (Hplay video_path false H).
  - intros image_path Hin H. unfold main, process_image.
    rewrite Hin. simpl. now rewrite H.
  - intros video_path Hin H. unfold main, play_with_fallback, play_video.
    rewrite Hin. simpl. now rewrite H.
  - intros Hin H. unfold main, play_with_fallback, play_video.
    rewrite Hin. simpl. now rewrite H.
Qed.

Lemma load_failure_fails_fast_witness :
  let V := given_contours [] in
  @process_image ascii_only V (nothing_opens []) "car.jpg" india_reader =
    [EvImread "car.jpg"; EvPrint "Error: Cannot load image car.jpg"] /\
  @play_video ascii_only V (nothing_opens []) (Index 0) india_reader false =
    ([EvVideoCapture (Index 0);
      EvPrint "Error: Unable to open video file: 0"], Returned) /\
  @main ascii_only V (nothing_opens ["3"; "car.jpg"]%string) =
    banner ++
    [EvInput "Enter your choice (1-3): "; EvReader;
     EvInput "Enter image file path: ";
     EvImread "car.jpg"; EvPrint "Error: Cannot load image car.jpg"] /\
  @main ascii_only V (nothing_opens ["1"; "clip.mp4"]%string) =
    banner ++
    [EvInput "Enter your choice (1-3): "; EvReader;
     EvInput "Enter video file path: ";
     EvVideoCapture (Path "clip.mp4");
     EvPrint "Error: Unable to open video file: clip.mp4"] /\
  @main ascii_only V (nothing_opens ["2"]%string) =
    banner ++
    [EvInput "Enter your choice (1-3): "; EvReader;
     EvVideoCapture (Index 0);
     EvPrint "Error: Unable to open video file: 0"].
Proof.
  intros V.
  pose proof (fun w => @load_failure_fails_fast ascii_only V w india_reader)
    as H.
  split; [apply (H (nothing_opens [])); reflexivity|].
  split; [apply (H (nothing_opens [])); reflexivity|].
  split; [apply (H (nothing_opens ["3"; "car.jpg"]%string)); reflexivity|].
  split; [apply (H (nothing_opens ["1"; "clip.mp4"]%string)); reflexivity|].
  apply (H (nothing_opens ["2"]%string)); reflexivity.
Defined.

(** * Further properties *)

(** ** Frames without detections *)

Lemma untouched_when_no_call `{U : PyStr} `{V : Vision}
      (frame : Image) (reader : Reader) :
  ocr_calls (process_frame_state frame reader) = [] ->
  process_frame frame reader = (frame, []).
Proof.
  intros E. destruct (Inv_process_frame reader frame) as [Hf Hp _].
  unfold process_frame. now rewrite Hf, Hp, E.
Qed.

Lemma no_call_without_candidate `{U : PyStr} `{V : Vision}
      (frame : Image) (reader : Reader) :
  filter (candidate frame) (findContours frame) = [] ->
  ocr_calls (process_frame_state frame reader) = [].
Proof.
  intros E. pose proof (calls_process_frame reader frame) as H.
  rewrite E in H. now apply map_eq_nil in H.
Qed.

(** X1: when no contour of the frame is a candidate region (in particular
    when there is no contour at all), the reader is never called and
    [process_frame] returns the input frame as it is, with no plate. *)
Theorem no_candidate_frame_untouched :
  forall (U : PyStr) (V : Vision) (frame : Image) (reader : Reader),
    filter (candidate frame) (findContours frame) = [] ->
    ocr_calls (process_frame_state frame reader) = [] /\
    process_frame frame reader = (frame, []).
Proof.
  intros U V frame reader E.
  pose proof (no_call_without_candidate frame reader E) as Hc.
  split; [exact Hc | now apply untouched_when_no_call].
Qed.

Lemma no_candidate_frame_untouched_witness :
  @process_frame ascii_only
    (given_contours
       [ {| c_area := 900; c_approx := quad; c_rect := rect_inner |};
         {| c_area := 1600; c_approx := [(0, 0); (1, 0); (1, 1)]%Z;
            c_rect := rect_inner |};
         {| c_area := 1600; c_approx := quad;
            c_rect := {| rx := 5; ry := 5; rw := 20; rh := 20 |} |} ])
    dark_frame india_reader = (dark_frame, []).
Proof.
  apply no_candidate_frame_untouched. reflexivity.
Defined.

Lemma hd_below (l : list nat) (b : nat) :
  0 < b -> Forall (fun n => n < b) l -> hd 0 l < b.
Proof. intros Hb H. destruct H; simpl; assumption. Qed.

Lemma slice_incl {A} (a b : nat) (l : list A) : incl (slice a b l) l.
Proof.
  unfold slice. intros x Hx.
  rewrite <- (firstn_skipn a l). apply in_or_app. right.
  rewrite <- (firstn_skipn (b - a) (skipn a l)). apply in_or_app. now left.
Qed.

Lemma size_ok_small_frame (frame : Image) (r : Rect) :
  length frame < 20 \/ Forall (fun row => length row < 80) frame ->
  size_ok frame r = false.
Proof.
  intros H. unfold size_ok. apply negb_false_iff, orb_true_iff.
  destruct H as [H | H].
  - left. apply Nat.ltb_lt. unfold shape0, roi_of, crop, slice.
    rewrite length_map, length_firstn, length_skipn. lia.
  - right. apply Nat.ltb_lt.
    rewrite shape1_row_lengths. unfold roi_of. rewrite row_lengths_crop.
    apply hd_below; [lia|]. apply Forall_forall. intros n Hn.
    apply in_map_iff in Hn as (m & <- & Hm). apply slice_incl in Hm.
    unfold row_lengths in Hm. apply in_map_iff in Hm as (row & <- & Hrow).
    rewrite Forall_forall in H. specialize (H row Hrow). lia.
Qed.

(** X2: a frame of fewer than 20 rows, or whose rows all have fewer than 80
    pixels, has no candidate region whatever its contours are: the reader is
    never called and the frame comes back as it is, with no plate. *)
Theorem small_frame_no_detection :
  forall (U : PyStr) (V : Vision) (frame : Image) (reader : Reader),
    length frame < 20 \/ Forall (fun row => length row < 80) frame ->
    ocr_calls (process_frame_state frame reader) = [] /\
    process_frame frame reader = (frame, []).
Proof.
  intros U V frame reader Hsmall.
  assert (E : filter (candidate frame) (findContours frame) = []).
  { induction (findContours frame) as [|c cs IH]; simpl; [reflexivity|].
    unfold candidate at 1. rewrite (size_ok_small_frame _ Hsmall).
    now rewrite andb_false_r. }
  pose proof (no_call_without_candidate frame reader E) as Hc.
  split; [exact Hc | now apply untouched_when_no_call].
Qed.

Lemma small_frame_no_detection_witness :
  @process_frame ascii_only (given_contours [contour_inner; contour_outer])
    (blank 19 100) india_reader = (blank 19 100, []) /\
  @process_frame ascii_only (given_contours [contour_inner; contour_outer])
    (blank 30 79) india_reader = (blank 30 79, []).
Proof.
  split.
  - apply small_frame_no_detection. left. vm_compute. lia.
  - apply small_frame_no_detection. right.
    unfold blank. apply Forall_forall. intros row Hrow.
    apply repeat_spec in Hrow. subst row. rewrite repeat_length. lia.
Defined.

(** X3: the frame that [process_frame] returns has the rows and row
    lengths of the input frame, and it is the input frame itself when no
    plate is returned. *)
Theorem returned_frame_shape :
  forall (U : PyStr) (V : Vision) (frame : Image) (reader : Reader),
    row_lengths (fst (process_frame frame reader)) = row_lengths frame /\
    (snd (process_frame frame reader) = [] ->
     fst (process_frame frame reader) = frame).
Proof.
  intros U V frame reader.
  pose proof (Inv_process_frame reader frame) as HI.
  unfold process_frame. cbn [fst snd]. split.
  - now apply Inv_row_lengths with (reader := reader).
  - intros Hnone. rewrite (inv_frame HI).
    apply annotated_no_plate. now rewrite <- (inv_plates HI).
Qed.

Lemma returned_frame_shape_witness :
  fst (@process_frame ascii_only
         (given_contours [contour_inner; contour_outer]) dark_frame
         (const_reader [(quad, codepoints "AB1", (9 # 10)%Q)])) = dark_frame.
Proof.
  apply returned_frame_shape. vm_compute. reflexivity.
Defined.

(** ** What the text filter lets through *)

Lemma filter_idem {A} (f : A -> bool) (l : list A) :
  filter f (filter f l) = filter f l.
Proof. apply forallb_filter_id, forallb_filter. Qed.

Lemma process_contour_accepted_only `{U : PyStr} `{V : Vision}
      (reader : Reader) (st : LoopState) (cnt : Contour) :
  process_contour (accepted_only reader) st cnt = process_contour reader st cnt.
Proof.
  rewrite !process_contour_cases.
  destruct (candidate (st_frame st) cnt); [|reflexivity].
  cbv zeta. unfold annotate_call, plates_of_call, accepted_only. cbn [snd].
  now rewrite filter_idem.
Qed.

(** X4: the results the text filter rejects (confidence below 0.2, or a
    normalized text of fewer than 4 characters) have no effect at all: a
    reader that does not report them leads to the same calls, the same
    annotated frame and the same plates. *)
Theorem rejected_results_have_no_effect :
  forall (U : PyStr) (V : Vision) (frame : Image) (reader : Reader),
    process_frame_state frame (accepted_only reader) =
      process_frame_state frame reader /\
    process_frame frame (accepted_only reader) = process_frame frame reader.
Proof.
  intros U V frame reader.
  assert (E : process_frame_state frame (accepted_only reader) =
              process_frame_state frame reader).
  { unfold process_frame_state, run_contours.
    generalize (initial_state frame).
    induction (findContours frame) as [|c cs IH]; intros st; simpl;
      [reflexivity|].
    now rewrite process_contour_accepted_only, IH. }
  split; [exact E|]. unfold process_frame. now rewrite E.
Qed.

(** X5: every plate of [process_frame] carries a text that normalization
    leaves as it is and the label [detect_country] gives that text, and the
    label is "USA" or "Unknown". *)
Theorem plates_are_labelled_by_their_text :
  forall (U : PyStr) (V : Vision) (frame : Image) (reader : Reader),
    Forall (fun p =>
              normalize (plate_text p) = plate_text p /\
              country_of p = detect_country (plate_text p) /\
              (country_of p = "USA"%string \/ country_of p = "Unknown"%string))
           (snd (process_frame frame reader)).
Proof.
  intros U V frame reader. apply Forall_forall. intros p Hp.
  apply plates_come_from_accepted in Hp as ([[bbox text] prob] & _ & ->).
  unfold plate_of, plate_text, country_of. cbn [fst snd].
  split; [apply filter_idem|]. split; [reflexivity|].
  rewrite detect_country_cases.
  destruct (begins_upper_or_digit (remove_spaces (normalize text)));
    [now left | now right].
Qed.

(** ** [detect_country] and spaces *)

Lemma detect_country_in_spaces table text text' :
  remove_spaces text = remove_spaces text' ->
  detect_country_in table text = detect_country_in table text'.
Proof.
  intros E. induction table as [|[country p] rest IH]; simpl; [reflexivity|].
  now rewrite E, IH.
Qed.

(** X6: with any pattern table, [detect_country] does not see the spaces of
    a text: a space put anywhere in the text leaves the label as it is, and
    the label is that of the text without its spaces; with the table of the
    module, a text of spaces only (the empty text too) is "Unknown". *)
Theorem detect_country_ignores_spaces :
  forall (table : list (string * pattern)) (a b : str) (n : nat),
    detect_country_in table (a ++ 32%N :: b) = detect_country_in table (a ++ b) /\
    detect_country_in table (remove_spaces (a ++ b)) =
      detect_country_in table (a ++ b) /\
    detect_country (repeat 32%N n) = "Unknown"%string.
Proof.
  intros table a b n. repeat split.
  - apply detect_country_in_spaces. unfold remove_spaces.
    now rewrite !filter_app.
  - apply detect_country_in_spaces. apply filter_idem.
  - rewrite detect_country_cases.
    replace (remove_spaces (repeat 32%N n)) with (@nil char); [reflexivity|].
    induction n as [|n IH]; simpl; [reflexivity | exact IH].
Qed.

(** ** The matcher and longer texts *)

(** X7: a pattern that matches a text matches every text that extends it:
    characters after the match are never looked at. *)
Theorem re_match_extends :
  forall (p : pattern) (s more : str),
    re_match p s = true -> re_match p (s ++ more) = true.
Proof.
  intros p s more H. apply re_match_spec in H as (pre & suf & -> & Hl).
  apply re_match_spec. exists pre, (suf ++ more).
  split; [now rewrite app_assoc | exact Hl].
Qed.

Lemma re_match_extends_witness :
  re_match Nepal_pattern (codepoints "BA-12-PA, Kathmandu") = true.
Proof.
  apply (re_match_extends Nepal_pattern (codepoints "BA-12-PA")
           (codepoints ", Kathmandu")).
  reflexivity.
Defined.

(** ** The loop over the contours *)

Lemma process_contour_appends `{U : PyStr} `{V : Vision}
      (reader : Reader) (st : LoopState) (cnt : Contour) :
  exists plates calls,
    detected_plates (process_contour reader st cnt) =
      detected_plates st ++ plates /\
    ocr_calls (process_contour reader st cnt) = ocr_calls st ++ calls /\
    length calls <= 1.
Proof.
  rewrite process_contour_cases.
  destruct (candidate (st_frame st) cnt).
  - do 2 eexists. cbn [detected_plates ocr_calls].
    split; [reflexivity|]. split; [reflexivity|]. simpl. lia.
  - exists [], []. rewrite !app_nil_r. repeat split. simpl. lia.
Qed.

(** X8: the loop only appends: after any further contours, the plates and
    the reader calls found so far are still there, in front and in the same
    order, and the calls made for the further contours are at most one per
    contour. *)
Theorem later_contours_only_append :
  forall (U : PyStr) (V : Vision) (reader : Reader)
         (done further : list Contour) (st : LoopState),
    exists plates calls,
      detected_plates (run_contours reader (done ++ further) st) =
        detected_plates (run_contours reader done st) ++ plates /\
      ocr_calls (run_contours reader (done ++ further) st) =
        ocr_calls (run_contours reader done st) ++ calls /\
      length calls <= length further.
Proof.
  intros U V reader done further st. unfold run_contours.
  rewrite fold_left_app.
  generalize (fold_left (process_contour reader) done st). clear st.
  induction further as [|c cs IH]; intros st; simpl.
  - exists [], []. rewrite !app_nil_r. repeat split. simpl. lia.
  - destruct (IH (process_contour reader st c)) as (ps & cl & Hp & Hc & Hl).
    destruct (process_contour_appends reader st c)
      as (ps0 & cl0 & Hp0 & Hc0 & Hl0).
    exists (ps0 ++ ps), (cl0 ++ cl).
    rewrite Hp, Hc, Hp0, Hc0, <- !app_assoc, length_app.
    repeat split. lia.
Qed.

(** ** Crops *)

(** X9: the crop [frame[y:y+h, x:x+w]] has [h] rows, or as many as the
    frame has from row [y] on, and its pixel at row [i] and column [j] is
    the frame's pixel at row [y + i] and column [x + j]. *)
Theorem crop_is_the_rectangle :
  forall (frame : Image) (x y w h i j : nat) (d : Pixel),
    i < h -> j < w ->
    shape0 (crop frame x y w h) = Nat.min h (length frame - y) /\
    nth j (nth i (crop frame x y w h) []) d =
      nth (x + j) (nth (y + i) frame []) d.
Proof.
  intros frame x y w h i j d Hi Hj. unfold shape0, crop, slice. split.
  - rewrite length_map, length_firstn, length_skipn. lia.
  - replace (y + h - y) with h by lia. replace (x + w - x) with w by lia.
    assert (Hd : firstn w (skipn x (@nil Pixel)) = [])
      by now rewrite skipn_nil, firstn_nil.
    rewrite <- Hd at 1.
    rewrite (map_nth (fun row => firstn w (skipn x row))).
    rewrite !nth_firstn, nth_skipn.
    apply Nat.ltb_lt in Hi, Hj. rewrite Hi, Hj. now rewrite nth_skipn.
Qed.

Lemma crop_is_the_rectangle_witness :
  shape0 (crop dark_frame 95 25 80 20) = 5 /\
  nth 2 (nth 1 (crop (draw_outline dark_frame (5, 5)%Z (84, 24)%Z) 3 4 80 20)
           []) black = green.
Proof.
  split.
  - apply (@crop_is_the_rectangle dark_frame 95 25 80 20 0 0 black); lia.
  - rewrite (proj2 (@crop_is_the_rectangle
                      (draw_outline dark_frame (5, 5)%Z (84, 24)%Z)
                      3 4 80 20 1 2 black ltac:(lia) ltac:(lia))).
    vm_compute. reflexivity.
Defined.

(** ** Playing a video *)

Section Playback.

Context {U : PyStr} {V : Vision}.
Variable w : World.
Variable reader : Reader.

Lemma print_plates_quiet plates : quiet (print_plates plates).
Proof.
  unfold quiet, print_plates, processed_frames.
  induction plates as [|p ps (IH1 & IH2 & IH3)]; simpl; auto.
Qed.

Lemma processed_frames_step frame plates rest :
  processed_frames
    (EvRead :: EvProcessFrame frame :: print_plates plates ++ rest) =
  frame :: processed_frames rest.
Proof.
  unfold processed_frames. simpl. rewrite flat_map_app.
  fold (processed_frames (print_plates plates)).
  now rewrite (proj1 (print_plates_quiet plates)).
Qed.

Lemma filter_step (f : event -> bool) frame plates rest :
  f EvRead = false -> f (EvProcessFrame frame) = false ->
  filter f (print_plates plates) = [] ->
  filter f (EvRead :: EvProcessFrame frame :: print_plates plates ++ rest) =
  filter f rest.
Proof.
  intros H1 H2 H3. simpl. now rewrite H1, H2, filter_app, H3.
Qed.

Lemma loop_result_step frame rest shown n um o tail :
  (forall pf plates,
      process_frame frame reader = (pf, plates) ->
      exists t,
        video_loop w reader um (frame :: rest) n =
          (EvRead :: EvProcessFrame frame :: print_plates plates ++ tail pf ++ t,
           o) /\
        processed_frames (tail pf ++ t) = shown /\
        filter is_open (tail pf ++ t) = [] /\
        filter is_release (tail pf ++ t) = []) ->
  loop_result w reader (frame :: rest) (frame :: shown) n um o.
Proof.
  intros H. destruct (process_frame frame reader) as [pf plates] eqn:E.
  destruct (H pf plates eq_refl) as (t & Ht & Hs & Ho & Hr).
  eexists. split; [exact Ht|].
  destruct (print_plates_quiet plates) as (_ & Qo & Qr).
  rewrite processed_frames_step, !filter_step by (reflexivity || assumption).
  now rewrite Hs, Ho, Hr.
Qed.

Lemma loop_matplotlib frames : forall n,
  loop_result w reader frames frames n true Returned.
Proof.
  induction frames as [|frame rest IH]; intros n.
  - eexists. split; [reflexivity|]. repeat split.
  - apply loop_result_step with (tail := fun pf => [EvPlt pf]).
    intros pf plates E. destruct (IH (S n)) as (t & Ht & Hs & Ho & Hr).
    exists t. cbn [video_loop]. rewrite E, Ht. repeat split; assumption.
Qed.

Hypothesis gui_on : gui w = true.

Lemma loop_until_quit frames : forall n k,
  k < length frames ->
  Z.land (waitKey w (n + k)) 255 = 113%Z ->
  (forall j, j < k -> Z.land (waitKey w (n + j)) 255 <> 113%Z) ->
  loop_result w reader frames (firstn (S k) frames) n false Returned.
Proof.
  induction frames as [|frame rest IH]; intros n k Hk Hq Hno;
    [simpl in Hk; lia|].
  change (firstn (S k) (frame :: rest)) with (frame :: firstn k rest).
  destruct k as [|k].
  - apply loop_result_step with (tail := fun pf => [EvImshow pf; EvWaitKey]).
    intros pf plates E. exists []. cbn [video_loop]. rewrite E, gui_on.
    rewrite Nat.add_0_r in Hq. rewrite Hq. repeat split.
  - apply loop_result_step with (tail := fun pf => [EvImshow pf; EvWaitKey]).
    intros pf plates E.
    destruct (IH (S n) k) as (t & Ht & Hs & Ho & Hr).
    + simpl in Hk. lia.
    + now replace (S n + k) with (n + S k) by lia.
    + intros j Hj. replace (S n + j) with (n + S j) by lia.
      apply Hno. lia.
    + exists t. cbn [video_loop]. rewrite E, gui_on.
      specialize (Hno 0 ltac:(lia)). rewrite Nat.add_0_r in Hno.
      apply Z.eqb_neq in Hno. rewrite Hno, Ht. repeat split; assumption.
Qed.

Lemma loop_to_the_end frames : forall n,
  (forall j, j < length frames -> Z.land (waitKey w (n + j)) 255 <> 113%Z) ->
  loop_result w reader frames frames n false Returned.
Proof.
  induction frames as [|frame rest IH]; intros n Hno.
  - eexists. split; [reflexivity|]. repeat split.
  - apply loop_result_step with (tail := fun pf => [EvImshow pf; EvWaitKey]).
    intros pf plates E.
    destruct (IH (S n)) as (t & Ht & Hs & Ho & Hr).
    + intros j Hj. replace (S n + j) with (n + S j) by lia.
      apply Hno. simpl. lia.
    + exists t. cbn [video_loop]. rewrite E, gui_on.
      specialize (Hno 0 ltac:(simpl; lia)). rewrite Nat.add_0_r in Hno.
      apply Z.eqb_neq in Hno. rewrite Hno, Ht. repeat split; assumption.
Qed.

End Playback.

Lemma observe_app (t1 t2 : list event) :
  processed_frames (t1 ++ t2) = processed_frames t1 ++ processed_frames t2 /\
  opens (t1 ++ t2) = opens t1 + opens t2 /\
  releases (t1 ++ t2) = releases t1 + releases t2.
Proof.
  unfold processed_frames, opens, releases.
  now rewrite flat_map_app, !filter_app, !length_app.
Qed.

Lemma observe_loop (src : source) (t : list event) (shown : list Image) :
  processed_frames t = shown ->
  filter is_open t = [] -> filter is_release t = [] ->
  let t' := EvVideoCapture src :: EvPrint "Press 'q' to quit." :: t in
  processed_frames t' = shown /\ opens t' = 1 /\ releases t' = 0.
Proof.
  intros Hs Ho Hr. unfold opens, releases, processed_frames in *. simpl.
  now rewrite Hs, Ho, Hr.
Qed.

Lemma play_video_matplotlib `{U : PyStr} `{V : Vision}
      (w : World) (reader : Reader) (src : source) (frames : list Image) :
  VideoCapture w src = Some frames ->
  exists t,
    play_video w src reader true = (t ++ [EvRelease], Returned) /\
    processed_frames t = frames /\ opens t = 1 /\ releases t = 0.
Proof.
  intros Hv. destruct (loop_matplotlib w reader frames 0)
    as (t & Ht & Hs & Ho & Hr).
  exists (EvVideoCapture src :: EvPrint "Press 'q' to quit." :: t).
  split; [unfold play_video; now rewrite Hv, Ht|].
  now apply observe_loop.
Qed.

Lemma play_video_gui `{U : PyStr} `{V : Vision}
      (w : World) (reader : Reader) (src : source)
      (frames shown : list Image) :
  gui w = true ->
  VideoCapture w src = Some frames ->
  loop_result w reader frames shown 0 false Returned ->
  snd (play_video w src reader false) = Returned /\
  processed_frames (fst (play_video w src reader false)) = shown /\
  opens (fst (play_video w src reader false)) = 1 /\
  releases (fst (play_video w src reader false)) = 1 /\
  last (fst (play_video w src reader false)) EvRead = EvDestroyAllWindows.
Proof.
  intros Hg Hv (t & Ht & Hs & Ho & Hr).
  unfold play_video. rewrite Hv, Ht, Hg. cbn [fst snd].
  destruct (observe_loop src t Hs Ho Hr) as (Hs' & Ho' & Hr').
  cbv zeta in Hs', Ho', Hr'.
  set (t' := EvVideoCapture src :: EvPrint "Press 'q' to quit." :: t) in *.
  destruct (observe_app t' [EvRelease; EvDestroyAllWindows]) as (-> & -> & ->).
  rewrite Hs', Ho', Hr'.
  split; [reflexivity|]. split; [apply app_nil_r|].
  split; [reflexivity|]. split; [reflexivity|].
  change [EvRelease; EvDestroyAllWindows]
    with ([EvRelease] ++ [EvDestroyAllWindows]).
  now rewrite app_assoc, last_last.
Qed.

(** X10: with Matplotlib as the display, [play_video] on a capture that
    opens processes every frame the capture delivers, once and in order,
    opens the capture once, releases it as the last thing it does, and
    returns normally. *)
Theorem matplotlib_playback_processes_every_frame :
  forall (U : PyStr) (V : Vision) (w : World) (reader : Reader)
         (src : source) (frames : list Image),
    VideoCapture w src = Some frames ->
    snd (play_video w src reader true) = Returned /\
    processed_frames (fst (play_video w src reader true)) = frames /\
    opens (fst (play_video w src reader true)) = 1 /\
    releases (fst (play_video w src reader true)) = 1 /\
    last (fst (play_video w src reader true)) EvRead = EvRelease.
Proof.
  intros U V w reader src frames Hv.
  destruct (play_video_matplotlib w reader src Hv) as (t & -> & Hs & Ho & Hr).
  cbn [fst snd].
  destruct (observe_app t [EvRelease]) as (-> & -> & ->).
  rewrite Hs, Ho, Hr, last_last.
  split; [reflexivity|]. split; [apply app_nil_r|]. repeat split.
Qed.

Lemma matplotlib_playback_processes_every_frame_witness :
  processed_frames
    (fst (@play_video ascii_only (given_contours [])
            (playing three_frames false (fun _ => 113%Z))
            (Index 0) india_reader true)) = three_frames.
Proof.
  apply (@matplotlib_playback_processes_every_frame ascii_only
           (given_contours []) (playing three_frames false (fun _ => 113%Z))
           india_reader (Index 0) three_frames).
  reflexivity.
Defined.

(** X11: with the window as the display, [play_video] stops at the first
    frame after which the key code, masked with 0xFF, is that of "q": it has
    processed the frames up to that one and no later frame, then releases the
    capture, destroys the windows and returns normally. *)
Theorem quit_key_stops_playback :
  forall (U : PyStr) (V : Vision) (w : World) (reader : Reader)
         (src : source) (frames : list Image) (k : nat),
    gui w = true ->
    VideoCapture w src = Some frames ->
    k < length frames ->
    Z.land (waitKey w k) 255 = 113%Z ->
    (forall j, j < k -> Z.land (waitKey w j) 255 <> 113%Z) ->
    snd (play_video w src reader false) = Returned /\
    processed_frames (fst (play_video w src reader false)) =
      firstn (S k) frames /\
    opens (fst (play_video w src reader false)) = 1 /\
    releases (fst (play_video w src reader false)) = 1 /\
    last (fst (play_video w src reader false)) EvRead = EvDestroyAllWindows.
Proof.
  intros U V w reader src frames k Hg Hv Hk Hq Hno.
  apply play_video_gui with (frames := frames); try assumption.
  now apply loop_until_quit.
Qed.

Lemma quit_key_stops_playback_witness :
  processed_frames
    (fst (@play_video ascii_only (given_contours [])
            (playing three_frames true
               (fun n => if n =? 1 then 369%Z else (-1)%Z))
            (Index 0) india_reader false)) = [blank 1 1; blank 2 2].
Proof.
  apply (@quit_key_stops_playback ascii_only (given_contours [])
           (playing three_frames true
              (fun n => if n =? 1 then 369%Z else (-1)%Z))
           india_reader (Index 0) three_frames 1).
  - reflexivity.
  - reflexivity.
  - simpl. lia.
  - reflexivity.
  - intros j Hj. replace j with 0 by lia. simpl. discriminate.
Defined.

(** X12: with the window as the display and no "q" among the key codes,
    [play_video] processes every frame the capture delivers, in order, then
    releases the capture, destroys the windows and returns normally; the
    code -1 of "no key" is not "q". *)
Theorem playback_without_quit_key :
  forall (U : PyStr) (V : Vision) (w : World) (reader : Reader)
         (src : source) (frames : list Image),
    gui w = true ->
    VideoCapture w src = Some frames ->
    (forall j, j < length frames -> Z.land (waitKey w j) 255 <> 113%Z) ->
    Z.land (-1) 255 <> 113%Z /\
    snd (play_video w src reader false) = Returned /\
    processed_frames (fst (play_video w src reader false)) = frames /\
    opens (fst (play_video w src reader false)) = 1 /\
    releases (fst (play_video w src reader false)) = 1 /\
    last (fst (play_video w src reader false)) EvRead = EvDestroyAllWindows.
Proof.
  intros U V w reader src frames Hg Hv Hno.
  split; [discriminate|].
  apply play_video_gui with (frames := frames); try assumption.
  now apply loop_to_the_end.
Qed.

Lemma playback_without_quit_key_witness :
  processed_frames
    (fst (@play_video ascii_only (given_contours [])
            (playing three_frames true (fun _ => (-1)%Z))
            (Index 0) india_reader false)) = three_frames.
Proof.
  apply (@playback_without_quit_key ascii_only (given_contours [])
           (playing three_frames true (fun _ => (-1)%Z))
           india_reader (Index 0) three_frames).
  - reflexivity.
  - reflexivity.
  - intros j Hj. simpl. discriminate.
Defined.



(** ** The pattern table *)

(** X14: every text that some pattern of the table matches is matched by
    the USA pattern, the first of the table. *)
Theorem usa_pattern_subsumes_table :
  forall (country : string) (p : pattern) (s : str),
    In (country, p) LICENSE_PLATE_PATTERNS ->
    re_match p s = true ->
    re_match USA_pattern s = true.
Proof.
  intros country p s Hin Hm. rewrite USA_matches.
  destruct (begins_upper_or_digit s) eqn:Hb; [reflexivity|].
  unfold LICENSE_PLATE_PATTERNS in Hin. simpl in Hin.
  destruct Hin as [E | [E | [E | [E | [E | []]]]]];
    injection E as _ <-.
  - now rewrite USA_matches, Hb in Hm.
  - unfold India_pattern in Hm. now rewrite upper_first_fails in Hm.
  - unfold Nepal_pattern in Hm. now rewrite upper_first_fails in Hm.
  - unfold Australia_pattern in Hm. now rewrite upper_first_fails in Hm.
  - change Canada_pattern with USA_pattern in Hm.
    now rewrite USA_matches, Hb in Hm.
Qed.

Lemma usa_pattern_subsumes_table_witness :
  re_match USA_pattern (codepoints "BA-12-PA") = true.
Proof.
  apply (@usa_pattern_subsumes_table "Nepal" Nepal_pattern
           (codepoints "BA-12-PA")).
  - right. right. left. reflexivity.
  - reflexivity.
Defined.

(** ** Candidate regions inside the frame *)




(** ** What a played video prints and shows *)

Section PlaybackOutput.

Context {U : PyStr} {V : Vision}.
Variable w : World.
Variable reader : Reader.

Lemma printed_plates_print_plates plates :
  printed_plates (print_plates plates) = plates /\
  plotted_frames (print_plates plates) = [].
Proof.
  unfold printed_plates, plotted_frames, print_plates.
  induction plates as [|p ps [IH1 IH2]]; simpl; [split; reflexivity|].
  now rewrite IH1, IH2.
Qed.

Lemma loop_matplotlib_output frames : forall n,
  printed_plates (fst (video_loop w reader true frames n)) =
    flat_map (fun f => snd (process_frame f reader)) frames /\
  plotted_frames (fst (video_loop w reader true frames n)) =
    map (fun f => fst (process_frame f reader)) frames.
Proof.
  induction frames as [|frame rest IH]; intros n; [split; reflexivity|].
  cbn [video_loop flat_map map].
  destruct (process_frame frame reader) as [pf plates].
  destruct (IH (S n)) as [IHp IHs].
  destruct (video_loop w reader true rest (S n)) as [t o].
  cbn [fst snd] in *.
  destruct (printed_plates_print_plates plates) as [Hp Hs].
  unfold printed_plates, plotted_frames in *. simpl.
  rewrite !flat_map_app, Hp, Hs. simpl. now rewrite IHp, IHs.
Qed.

End PlaybackOutput.

(** X16: played with Matplotlib, a video prints the plates of its frames,
    frame after frame, each frame's plates being those [process_frame] finds
    in that frame alone, and shows the annotated frame of every frame, in
    order. *)
Theorem matplotlib_playback_output :
  forall (U : PyStr) (V : Vision) (w : World) (reader : Reader)
         (src : source) (frames : list Image),
    VideoCapture w src = Some frames ->
    printed_plates (fst (play_video w src reader true)) =
      flat_map (fun f => snd (process_frame f reader)) frames /\
    plotted_frames (fst (play_video w src reader true)) =
      map (fun f => fst (process_frame f reader)) frames.
Proof.
  intros U V w reader src frames Hv.
  destruct (loop_matplotlib_output w reader frames 0) as [Hp Hs].
  unfold play_video. rewrite Hv.
  destruct (video_loop w reader true frames 0) as [t o].
  cbn [fst snd] in *.
  set (t' := EvVideoCapture src :: EvPrint "Press 'q' to quit." :: t).
  assert (E : forall tail,
             printed_plates (t' ++ tail) =
               printed_plates t ++ printed_plates tail /\
             plotted_frames (t' ++ tail) =
               plotted_frames t ++ plotted_frames tail).
  { intros tail. unfold printed_plates, plotted_frames, t'. simpl.
    now rewrite !flat_map_app. }
  destruct o; cbn [fst].
  - destruct (E [EvRelease]) as [-> ->].
    rewrite Hp, Hs. simpl. now rewrite !app_nil_r.
  - destruct (E []) as [E1 E2]. rewrite app_nil_r in E1, E2.
    rewrite E1, E2, Hp, Hs. simpl. now rewrite !app_nil_r.
Qed.

Lemma matplotlib_playback_output_witness :
  printed_plates
    (fst (@play_video ascii_only (given_contours [contour_inner])
            (playing [dark_frame; blank 19 100; dark_frame] false
               (fun _ => (-1)%Z))
            (Path "clip.mp4") india_reader true)) =
  [ (codepoints "AB12CD3456", "USA"%string, (9 # 10)%Q);
    (codepoints "AB12CD3456", "USA"%string, (9 # 10)%Q) ].
Proof.
  rewrite (proj1 (@matplotlib_playback_output ascii_only
                    (given_contours [contour_inner])
                    (playing [dark_frame; blank 19 100; dark_frame] false
                       (fun _ => (-1)%Z))
                    india_reader (Path "clip.mp4")
                    [dark_frame; blank 19 100; dark_frame] eq_refl)).
  vm_compute. reflexivity.
Defined.
